(** * EdTech backend: the request handlers of [app.py]

    A shallow embedding of the Flask handlers [analyze_profile],
    [generate_plan], [send_email] and [submit_feedback], and the properties
    of the specification that can be settled on them.

    Conventions of the embedding.
    - A Python [str] is a [string]; its characters are read as the code
      points U+0000..U+00FF (the Latin-1 range), on which [str.lower],
      [str.strip] and [str.isspace] are modelled exactly.
    - A Python [float] is an IEEE 754 binary64 value, [spec_float] with
      precision 53 and maximal exponent 1024.
    - A Python [int] is a [Z].
    - A parsed JSON document is a [json]; a JSON object is a finite map.
    - A raised exception is the [Raise] case of the [result] monad; every
      handler ends in the [except Exception] clause of the source, which
      turns it into a response.
    - What the handlers call outside the process is a parameter of the
      section that embeds them: the text service ([post]), the mail relay
      ([relay]), the document store ([add]); so are the message of an
      exception ([exn_str]), the serialisation of a mail ([as_string]) and
      the regular expressions outside the modelled families
      ([re_other]). *)

From Stdlib Require Import ZArith NArith Bool Ascii String List Lia.
From Stdlib Require Import Floats.SpecFloat.
From stdpp Require Import gmap strings list fin_maps.

Local Open Scope string_scope.
Local Open Scope Z_scope.

(* ================================================================== *)
(** * Exceptions and the error monad *)
(* ================================================================== *)

(** The exception classes the handlers can meet. *)
Inductive exn :=
  | TypeError
  | ValueError
  | OverflowError
  | AttributeError
  | KeyError
  | IndexError
  | ReError          (* re.error: the pattern does not compile *)
  | JSONDecodeError  (* response.json() on a body that is not JSON *)
  | UpstreamError.   (* a network call failed: requests, smtplib, firestore *)

Inductive result (A : Type) :=
  | Return (a : A)
  | Raise (e : exn).
Arguments Return {A} a.
Arguments Raise {A} e.

#[global] Instance result_ret : MRet result := fun A a => Return a.

#[global] Instance result_bind : MBind result := fun A B k m =>
  match m with
  | Return a => k a
  | Raise e => Raise e
  end.

Definition raises {A} (m : result A) : Prop := exists e, m = Raise e.

(* ================================================================== *)
(** * Strings *)
(* ================================================================== *)

Module Str.

Definition code (c : ascii) : N := N_of_ascii c.

Definition in_range (lo hi : N) (c : ascii) : bool :=
  ((lo <=? code c) && (code c <=? hi))%N.

(** [str.isspace] on one character. *)
Definition isspace (c : ascii) : bool :=
  in_range 9 13 c || in_range 28 32 c || (code c =? 133)%N || (code c =? 160)%N.

(** [str.lower] on one character: A-Z, and the capital letters of
    U+00C0..U+00DE except the multiplication sign U+00D7. *)
Definition lower_char (c : ascii) : ascii :=
  if in_range 65 90 c || (in_range 192 222 c && negb (code c =? 215)%N)
  then ascii_of_N (code c + 32)
  else c.

Fixpoint lower (s : string) : string :=
  match s with
  | EmptyString => EmptyString
  | String c s' => String (lower_char c) (lower s')
  end.

Fixpoint lstrip (s : string) : string :=
  match s with
  | EmptyString => EmptyString
  | String c s' => if isspace c then lstrip s' else s
  end.

Fixpoint rev_onto (s acc : string) : string :=
  match s with
  | EmptyString => acc
  | String c s' => rev_onto s' (String c acc)
  end.

Definition rev (s : string) : string := rev_onto s EmptyString.

Definition rstrip (s : string) : string := rev (lstrip (rev s)).

(** [s.strip()] *)
Definition strip (s : string) : string := rstrip (lstrip s).

(** [s.startswith(p)] *)
Fixpoint startswith (p s : string) : bool :=
  match p, s with
  | EmptyString, _ => true
  | String a p', String b s' => Ascii.eqb a b && startswith p' s'
  | String _ _, EmptyString => false
  end.

(** [p in s]: [p] occurs in [s] as a contiguous substring. *)
Fixpoint contains (p s : string) : bool :=
  startswith p s ||
  match s with
  | EmptyString => false
  | String _ s' => contains p s'
  end.

(** [s[:n]] *)
Fixpoint take (n : nat) (s : string) : string :=
  match n, s with
  | O, _ => EmptyString
  | S n', String c s' => String c (take n' s')
  | S _, EmptyString => EmptyString
  end.

Fixpoint mem (c : ascii) (s : string) : bool :=
  match s with
  | EmptyString => false
  | String d s' => Ascii.eqb c d || mem c s'
  end.

Fixpoint forallb (f : ascii -> bool) (s : string) : bool :=
  match s with
  | EmptyString => true
  | String c s' => f c && forallb f s'
  end.

End Str.

(* ================================================================== *)
(** * Floats: IEEE 754 binary64 *)
(* ================================================================== *)

Module Float.

Definition prec : Z := 53.
Definition emax : Z := 1024.

Definition mul : spec_float -> spec_float -> spec_float := SFmul prec emax.
Definition leb : spec_float -> spec_float -> bool := SFleb.

(** The float nearest to the integer [z] (ties to even); the infinity
    when [z] is out of range. *)
Definition of_Z (z : Z) : spec_float := binary_normalize prec emax z 0 false.

(** The float nearest to [(-1)^neg * m * 10^e]. *)
Definition of_decimal (neg : bool) (m : Z) (e : Z) : spec_float :=
  match m with
  | Zpos p =>
      if 0 <=? e
      then binary_normalize prec emax (cond_Zopp neg (m * 10 ^ e)) 0 neg
      else
        match 10 ^ (- e) with
        | Zpos d =>
            SFdiv prec emax (S754_finite neg p 0) (S754_finite false d 0)
        | _ => S754_nan
        end
  | _ => S754_zero neg
  end.

Definition is_finite (f : spec_float) : bool :=
  match f with
  | S754_zero _ | S754_finite _ _ _ => true
  | _ => false
  end.


(** The integer part of a finite float, rounded towards zero. *)
Definition trunc (f : spec_float) : Z :=
  match f with
  | S754_finite s m e =>
      cond_Zopp s (match e with
                   | Zneg k => Z.shiftr (Zpos m) (Zpos k)
                   | _ => Z.shiftl (Zpos m) e
                   end)
  | _ => 0
  end.

(** The value of a finite float as the fraction [num / den]. *)
Definition num (f : spec_float) : Z :=
  match f with
  | S754_finite s m e => cond_Zopp s (Zpos m * 2 ^ Z.max 0 e)
  | _ => 0
  end.

Definition den (f : spec_float) : Z :=
  match f with
  | S754_finite _ _ e => 2 ^ Z.max 0 (- e)
  | _ => 1
  end.

End Float.

(* ================================================================== *)
(** * JSON values and the Python built-ins applied to them *)
(* ================================================================== *)

(** What [request.get_json()] and [response.json()] return: [None],
    [bool], [int], [float], [str], [list], [dict] with [str] keys. *)
#[warnings="-register-all"]
Inductive json :=
  | JNull
  | JBool (b : bool)
  | JInt (z : Z)
  | JFloat (f : spec_float)
  | JStr (s : string)
  | JArr (l : list json)
  | JObj (m : gmap string json).

(** Parsing of numeric literals held in a [str], as [float(s)] and
    [int(s)] do it. *)
Module Num.

Definition is_digit (c : ascii) : bool := Str.in_range 48 57 c.

Definition digit_val (c : ascii) : Z := Z.of_N (Str.code c) - 48.

(** The blanks skipped around a literal: tab to carriage return, the
    space, and the two non-ASCII blanks of the range, U+0085 and U+00A0,
    which the conversion maps to a space first. *)
Definition is_blank (c : ascii) : bool :=
  Str.in_range 9 13 c || (Str.code c =? 32)%N
  || (Str.code c =? 133)%N || (Str.code c =? 160)%N.

Fixpoint ltrim (s : string) : string :=
  match s with
  | EmptyString => EmptyString
  | String c s' => if is_blank c then ltrim s' else s
  end.

Definition trim (s : string) : string :=
  Str.rev (ltrim (Str.rev (ltrim s))).

(** An underscore is dropped when it stands between two digits, and
    makes the literal invalid anywhere else; [prev] is the character
    before [s]. *)
Fixpoint drop_underscores (prev : ascii) (s : string) : option string :=
  match s with
  | EmptyString => if Ascii.eqb prev "_" then None else Some EmptyString
  | String c s' =>
      if Ascii.eqb c "_"
      then (if is_digit prev then drop_underscores c s' else None)
      else if Ascii.eqb prev "_" && negb (is_digit c) then None
      else option_map (String c) (drop_underscores c s')
  end.

Definition read_sign (s : string) : bool * string :=
  match s with
  | String "-" s' => (true, s')
  | String "+" s' => (false, s')
  | _ => (false, s)
  end.

(** Reads a run of digits: the value accumulated onto [acc], the number
    of digits read added to [n], and the rest of the string. *)
Fixpoint read_digits (s : string) (acc : Z) (n : nat) : Z * nat * string :=
  match s with
  | String c s' =>
      if is_digit c then read_digits s' (10 * acc + digit_val c) (S n)
      else (acc, n, s)
  | EmptyString => (acc, n, s)
  end.

(** The exponent part: nothing, or [e] or [E], an optional sign and at
    least one digit, up to the end of the literal. *)
Definition read_exponent (s : string) : option Z :=
  match s with
  | EmptyString => Some 0
  | String c s' =>
      if Ascii.eqb c "e" || Ascii.eqb c "E" then
        let '(neg, s1) := read_sign s' in
        match read_digits s1 0 0 with
        | (_, O, _) => None
        | (v, S _, EmptyString) => Some (cond_Zopp neg v)
        | (_, S _, String _ _) => None
        end
      else None
  end.

(** [float(s)] for a [str]. *)
Definition float_of_string (s : string) : result spec_float :=
  match drop_underscores "000" s with
  | None => Raise ValueError
  | Some t =>
      let '(neg, t) := read_sign (trim t) in
      let w := Str.lower t in
      if String.eqb w "inf" || String.eqb w "infinity"
      then Return (S754_infinity neg)
      else if String.eqb w "nan" then Return S754_nan
      else
        let '(i, ni, t1) := read_digits t 0 0 in
        let '(m, nf, t2) :=
          match t1 with
          | String "." t' => read_digits t' i 0
          | _ => (i, O, t1)
          end in
        match (ni + nf)%nat, read_exponent t2 with
        | S _, Some e => Return (Float.of_decimal neg m (e - Z.of_nat nf))
        | _, _ => Raise ValueError
        end
  end.

(** The longest run of digits [int(s)] converts (the default of
    [sys.get_int_max_str_digits()]). *)
Definition int_max_str_digits : nat := 4300.

(** Reads digits separated by single underscores. *)
Fixpoint read_int_digits (prev : ascii) (s : string) (acc : Z) (n : nat)
  : option (Z * nat * string) :=
  match s with
  | String c s' =>
      if Ascii.eqb c "_"
      then (if Ascii.eqb prev "_" then None
            else read_int_digits c s' acc n)
      else if is_digit c
      then read_int_digits c s' (10 * acc + digit_val c) (S n)
      else if Ascii.eqb prev "_" then None else Some (acc, n, s)
  | EmptyString => if Ascii.eqb prev "_" then None else Some (acc, n, s)
  end.

(** [int(s)] for a [str], in base 10. *)
Definition int_of_string (s : string) : result Z :=
  let '(neg, t) := read_sign (ltrim s) in
  match t with
  | String "_" _ => Raise ValueError
  | _ =>
      match read_int_digits "000" t 0 0 with
      | Some (v, S n, rest) =>
          match ltrim rest with
          | EmptyString =>
              if (int_max_str_digits <? S n)%nat then Raise ValueError
              else Return (cond_Zopp neg v)
          | String _ _ => Raise ValueError
          end
      | _ => Raise ValueError
      end
  end.

End Num.

Module Py.

(** [bool(v)] *)
Definition truthy (v : json) : bool :=
  match v with
  | JNull => false
  | JBool b => b
  | JInt z => negb (z =? 0)
  | JFloat (S754_zero _) => false
  | JFloat _ => true
  | JStr s => negb (String.eqb s "")
  | JArr l => match l with [] => false | _ :: _ => true end
  | JObj m => negb (bool_decide (m = ∅))
  end.

(** [all(vs)] *)
Definition all (vs : list json) : bool := List.forallb truthy vs.

(** [float(v)] *)
Definition float (v : json) : result spec_float :=
  match v with
  | JBool b => Return (Float.of_Z (if b then 1 else 0))
  | JInt z =>
      match Float.of_Z z with
      | S754_infinity _ => Raise OverflowError
      | f => Return f
      end
  | JFloat f => Return f
  | JStr s => Num.float_of_string s
  | JNull | JArr _ | JObj _ => Raise TypeError
  end.

(** [int(f)] for a [float]. *)
Definition int_of_float (f : spec_float) : result Z :=
  match f with
  | S754_nan => Raise ValueError
  | S754_infinity _ => Raise OverflowError
  | _ => Return (Float.trunc f)
  end.

(** [int(v)] *)
Definition int (v : json) : result Z :=
  match v with
  | JBool b => Return (if b then 1 else 0)
  | JInt z => Return z
  | JFloat f => int_of_float f
  | JStr s => Num.int_of_string s
  | JNull | JArr _ | JObj _ => Raise TypeError
  end.

(** [d.get(k, default)]: only a [dict] has the method. *)
Definition get (d : json) (k : string) (default : json) : result json :=
  match d with
  | JObj m => Return (match m !! k with Some v => v | None => default end)
  | _ => Raise AttributeError
  end.

(** The receiver of a [str] method: any other value has no such
    attribute. *)
Definition as_str (v : json) : result string :=
  match v with
  | JStr s => Return s
  | _ => Raise AttributeError
  end.

End Py.

(* ================================================================== *)
(** * Regular expressions, as [Series.str.contains] uses them *)
(* ================================================================== *)

(** [Series.str.contains(pat)] reads [pat] as a regular expression: it
    compiles it with [re.compile] and keeps the elements in which
    [search] finds a match.  Two families of patterns are modelled here,
    and the rest of the pattern language is a parameter of the
    development ([other] below):
    - a pattern made of ordinary characters and dots: an ordinary
      character matches itself, a dot matches any character but the line
      feed;
    - a pattern that starts with a repetition operator ([*], [+] or [?]):
      the compilation fails with "nothing to repeat". *)
Module Re.

(** The characters with a meaning of their own in a pattern. *)
Definition special_chars : string := ".\[{()*+?^$|".

Definition is_special (c : ascii) : bool := Str.mem c special_chars.

Inductive atom :=
  | Lit (c : ascii)
  | Dot.

Fixpoint parse (pat : string) : option (list atom) :=
  match pat with
  | EmptyString => Some []
  | String c pat' =>
      if Ascii.eqb c "."
      then option_map (cons Dot) (parse pat')
      else if is_special c then None
      else option_map (cons (Lit c)) (parse pat')
  end.

Definition atom_matches (a : atom) (c : ascii) : bool :=
  match a with
  | Lit d => Ascii.eqb d c
  | Dot => negb (Ascii.eqb c "010")
  end.

(** The atoms match a prefix of [s]. *)
Fixpoint match_here (atoms : list atom) (s : string) : bool :=
  match atoms, s with
  | [], _ => true
  | a :: atoms', String c s' => atom_matches a c && match_here atoms' s'
  | _ :: _, EmptyString => false
  end.

(** [pattern.search(s) is not None] *)
Fixpoint search (atoms : list atom) (s : string) : bool :=
  match_here atoms s ||
  match s with
  | EmptyString => false
  | String _ s' => search atoms s'
  end.

Definition starts_with_repeat (pat : string) : bool :=
  match pat with
  | String c _ => Str.mem c "*+?"
  | EmptyString => false
  end.

Section Compile.

(** The patterns outside the two families: what compiling them
    raises, or the search they denote. *)
Variable other : string -> result (string -> bool).

(** [re.compile(pat)], as the search function of the compiled
    pattern. *)
Definition compile (pat : string) : result (string -> bool) :=
  if starts_with_repeat pat then Raise ReError
  else match parse pat with
       | Some atoms => Return (search atoms)
       | None => other pat
       end.

End Compile.

End Re.

(* ================================================================== *)
(** * The catalog and the pandas operations on it *)
(* ================================================================== *)

(** Modelled from the spec: the table [course_data.csv] is not part of the
    repository; a row has the columns the handler reads, typed as the
    data model of the specification types a CourseRow (text columns as
    [str], the GPA threshold as a float, the budget bounds as
    integers). *)
Record CourseRow := {
  career_goal : string;
  personality_min_gpa : spec_float;
  min_budget : Z;
  max_budget : Z;
  learning_style : string;
  recommended_course : string;
  university : string;
  country : string
}.

(** The global [df]: the table read at start-up, or the [pd.DataFrame()]
    without any column that replaces it when the file cannot be read. *)
Inductive DataFrame :=
  | Frame (rows : list CourseRow)
  | NoColumns.

Module Pd.

(** [df[name]]: the column as a Series, [KeyError] without it. *)
Definition column {A} (df : DataFrame) (name : CourseRow -> A)
  : result (list A) :=
  match df with
  | Frame rows => Return (map name rows)
  | NoColumns => Raise KeyError
  end.

(** [series.str.lower()] *)
Definition str_lower (s : list string) : list string := map Str.lower s.

(** [series.str.contains(pat)]: the pattern is compiled once, before
    any element is looked at. *)
Definition str_contains (compile : string -> result (string -> bool))
    (pat : string) (s : list string) : result (list bool) :=
  f ← compile pat; mret (map f s).

(** [a & b] on two boolean Series of one table. *)
Fixpoint and_ (a b : list bool) : list bool :=
  match a, b with
  | x :: a', y :: b' => (x && y) :: and_ a' b'
  | _, _ => []
  end.

(** [df[mask]]: the rows whose mask is [True], in table order. *)
Fixpoint select {A} (rows : list A) (mask : list bool) : list A :=
  match rows, mask with
  | r :: rows', m :: mask' =>
      if m then r :: select rows' mask' else select rows' mask'
  | _, _ => []
  end.

Definition getitem_mask (df : DataFrame) (mask : list bool)
  : result (list CourseRow) :=
  match df with
  | Frame rows => Return (select rows mask)
  | NoColumns => Raise KeyError
  end.

(** [frame.empty] *)
Definition empty {A} (rows : list A) : bool :=
  match rows with [] => true | _ :: _ => false end.

(** [frame.head(n)] *)
Definition head {A} (n : nat) (rows : list A) : list A := firstn n rows.

End Pd.

(* ================================================================== *)
(** * Responses *)
(* ================================================================== *)

(** What a handler returns: [jsonify(body), status]. *)
Record response := {
  status : Z;
  body : json
}.

Definition jsonify (fields : list (string * json)) : json :=
  JObj (list_to_map fields).

Definition error_body (msg : string) : json := jsonify [("error", JStr msg)].

Definition tolist (s : list string) : json := JArr (map JStr s).

(* ================================================================== *)
(** * POST /analyze-profile *)
(* ================================================================== *)

(** The local variables of [analyze_profile] that its filter closes
    over.  [personality] is read and upper-cased, then never used. *)
Record profile := {
  gpa : spec_float;
  goal : string;
  budget : Z;
  style : string
}.

Inductive tier := Strict | DropStyle | DropStyleRelaxBudget.

Definition drop_style_of (t : tier) : bool :=
  match t with Strict => false | _ => true end.

Definition relax_budget_of (t : tier) : bool :=
  match t with DropStyleRelaxBudget => true | _ => false end.

Definition tier_rank (t : tier) : nat :=
  match t with Strict => 0 | DropStyle => 1 | DropStyleRelaxBudget => 2 end.

(** Line 87: [min(100, int(gpa * 10))]. *)
Definition match_score (gpa : spec_float) : result Z :=
  s ← Py.int_of_float (Float.mul gpa (Float.of_Z 10));
  mret (Z.min 100 s).

(** Line 80. *)
Definition not_found : response :=
  {| status := 404; body := error_body "No close matches found." |}.

(** Lines 83-88. *)
Definition match_result (top : list CourseRow) (score : Z) : response :=
  {| status := 200;
     body := jsonify
       [("recommended_courses", tolist (map recommended_course top));
        ("top_universities", tolist (map university top));
        ("recommended_countries", tolist (map country top));
        ("match_score", JInt score)] |}.

(** Line 92. *)
Definition analysis_failed : response :=
  {| status := 500; body := error_body "Profile analysis failed" |}.

Section AnalyzeProfile.

Variable re_other : string -> result (string -> bool).
Variable df : DataFrame.

(** Lines 60-64: the fields of the request, coerced. *)
Definition read_profile (data : json) : result profile :=
  _ ← Py.get data "personality" (JStr "") ≫= Py.as_str;
  gpa ← Py.get data "gpa" (JInt 0) ≫= Py.float;
  goal ← Py.get data "career_goal" (JStr "") ≫= Py.as_str;
  budget ← Py.get data "budget" (JInt 0) ≫= Py.int;
  style ← Py.get data "learning_style" (JStr "") ≫= Py.as_str;
  mret {| gpa := gpa;
          goal := Str.strip (Str.lower goal);
          budget := budget;
          style := Str.strip (Str.lower style) |}.

Section Filter.

Variable p : profile.

(** Lines 66-72. *)
Definition run_filter (strict drop_style relax_budget : bool)
  : result (list CourseRow) :=
  goals ← Pd.column df career_goal;
  hit ← Pd.str_contains (Re.compile re_other) (goal p) (Pd.str_lower goals);
  gpas ← Pd.column df personality_min_gpa;
  let query := Pd.and_ hit (map (fun g => Float.leb g (gpa p)) gpas) in
  query ← (if negb relax_budget then
             lo ← Pd.column df min_budget;
             hi ← Pd.column df max_budget;
             mret (Pd.and_ query
                     (Pd.and_ (map (fun x => x <=? budget p) lo)
                              (map (fun x => x >=? budget p) hi)))
           else mret query);
  query ← (if negb drop_style then
             styles ← Pd.column df learning_style;
             mret (Pd.and_ query
                     (map (fun s => String.eqb s (style p))
                          (Pd.str_lower styles)))
           else mret query);
  Pd.getitem_mask df query.

(** The filter of one relaxation tier. *)
Definition run_tier (t : tier) : result (list CourseRow) :=
  run_filter true (drop_style_of t) (relax_budget_of t).

(** Lines 74-88. *)
Definition match_profile : result response :=
  matched ← run_filter true false false;
  matched ← (if Pd.empty matched then run_filter true true false
             else mret matched);
  matched ← (if Pd.empty matched then run_filter true true true
             else mret matched);
  if Pd.empty matched
  then mret not_found
  else
    let top := Pd.head 3 matched in
    score ← match_score (gpa p);
    mret (match_result top score).

End Filter.

(** Lines 55-92: the handler, with its [except Exception] clause. *)
Definition analyze_profile (data : json) : response :=
  match p ← read_profile data; match_profile p with
  | Return r => r
  | Raise _ => analysis_failed
  end.

End AnalyzeProfile.

(* ================================================================== *)
(** * Python operators on JSON values *)
(* ================================================================== *)

Module Op.

(** [k in v] for a [str] key [k]. *)
Definition contains (k : string) (v : json) : result bool :=
  match v with
  | JObj m => Return (bool_decide (is_Some (m !! k)))
  | JArr l =>
      Return (existsb (fun x => match x with
                                | JStr s => String.eqb s k
                                | _ => false
                                end) l)
  | JStr s => Return (Str.contains k s)
  | JNull | JBool _ | JInt _ | JFloat _ => Raise TypeError
  end.

(** [v[k]] for a [str] key [k]. *)
Definition getitem (v : json) (k : string) : result json :=
  match v with
  | JObj m => match m !! k with
              | Some x => Return x
              | None => Raise KeyError
              end
  | _ => Raise TypeError
  end.

(** [v[0]] *)
Definition first (v : json) : result json :=
  match v with
  | JArr (x :: _) => Return x
  | JArr [] => Raise IndexError
  | JStr (String c _) => Return (JStr (String c EmptyString))
  | JStr EmptyString => Raise IndexError
  | JObj _ => Raise KeyError
  | JNull | JBool _ | JInt _ | JFloat _ => Raise TypeError
  end.

(** [v[:n]] *)
Definition slice_to (n : nat) (v : json) : result json :=
  match v with
  | JStr s => Return (JStr (Str.take n s))
  | JArr l => Return (JArr (firstn n l))
  | _ => Raise TypeError
  end.

(** [a or b] *)
Definition or_ (a b : json) : json := if Py.truthy a then a else b.

(** [len(v)] of a [str] or a [list]. *)
Definition len (v : json) : option nat :=
  match v with
  | JStr s => Some (String.length s)
  | JArr l => Some (List.length l)
  | _ => None
  end.

End Op.

(* ================================================================== *)
(** * POST /generate-plan *)
(* ================================================================== *)

(** The response of the generative-text service, as the handler reads
    it: [response.status_code], [response.text], [response.json()]. *)
Record http_response := {
  status_code : Z;
  text : string;
  json_of : result json
}.

(** What the prompt is made of. *)
Record plan_request := {
  exam : json;
  score : json;
  weeks : json;
  weak_areas : json
}.

(** Line 139. *)
Definition plan_response (plan_text : json) : response :=
  {| status := 200; body := jsonify [("plan", plan_text)] |}.

(** Line 141. *)
Definition no_insights (gemini_response : json) : response :=
  {| status := 500;
     body := jsonify [("error", JStr "No insights from Gemini");
                      ("raw", gemini_response)] |}.

(** Line 145; [message] is [str(e)]. *)
Definition plan_failed (message : string) : response :=
  {| status := 500;
     body := error_body ("Failed to generate plan: " ++ message)%string |}.

(** Line 131. *)
Definition gemini_failed (details : string) : response :=
  {| status := 500;
     body := jsonify [("error", JStr "Gemini API failed");
                      ("details", JStr details)] |}.

Section GeneratePlan.

(** [requests.post] on the prompt: the response, or the exception of a
    failed call. *)
Variable post : plan_request -> result http_response.

(** [str(e)]: the message of an exception. *)
Variable exn_str : exn -> string.

(** Lines 136-141. *)
Definition read_plan (gemini_response : json) : result response :=
  has ← Op.contains "candidates" gemini_response;
  usable ← (if (has : bool) then
              c ← Op.getitem gemini_response "candidates";
              Return (Py.truthy c)
            else Return false);
  if (usable : bool) then
    candidates ← Op.getitem gemini_response "candidates";
    candidate ← Op.first candidates;
    content ← Op.getitem candidate "content";
    parts ← Op.getitem content "parts";
    with_text ← (if Py.truthy parts then
                   part ← Op.first parts;
                   Op.contains "text" part
                 else Return false);
    plan_text ← (if (with_text : bool) then
                   part ← Op.first parts;
                   Op.getitem part "text"
                 else Return (JStr "(No content)"));
    mret (plan_response plan_text)
  else
    mret (no_insights gemini_response).

(** Lines 101-109: the fields of the request the prompt is built
    from. *)
Definition read_plan_request (data : json) : result plan_request :=
  exam ← Py.get data "exam_type" (JStr "GRE");
  score ← Py.get data "target_score" (JStr "300");
  weeks ← Py.get data "weeks" (JStr "6");
  weak_areas ← Py.get data "weak_areas" (JStr "");
  mret {| exam := exam; score := score; weeks := weeks;
          weak_areas := Op.or_ weak_areas (JStr "general preparation") |}.

(** Lines 95-145: the handler, with its [except Exception] clause. *)
Definition generate_plan (data : json) : response :=
  match
    request ← read_plan_request data;
    response ← post request;
    if negb (status_code response =? 200)
    then mret (gemini_failed (text response))
    else
      gemini_response ← json_of response;
      read_plan gemini_response
  with
  | Return r => r
  | Raise e => plan_failed (exn_str e)
  end.

End GeneratePlan.

(* ================================================================== *)
(** * POST /send-email *)
(* ================================================================== *)

(** The message handed to the relay: what the headers and the HTML part
    are built from. *)
Record message := {
  msg_type : json;   (* in the subject and the body *)
  msg_from : option string;
  msg_to : json;
  msg_name : json;   (* [to_name or 'Student'] *)
  msg_plan : json
}.

(** The calls made on the mail relay, in the order of lines 176-180. *)
Inductive smtp_call :=
  | Connect (host : string) (port : Z)
  | StartTLS
  | Login (user pass : option string)
  | SendMail (from_addr : option string) (to_addr : json) (payload : string)
  | Quit.

(** Line 157. *)
Definition missing_parameters : response :=
  {| status := 400; body := error_body "Missing email parameters" |}.

(** Line 182. *)
Definition email_sent : response :=
  {| status := 200;
     body := jsonify [("message", JStr "Email sent successfully")] |}.

(** Line 186. *)
Definition email_failed : response :=
  {| status := 500; body := error_body "Failed to send email" |}.

(** A computation that talks to the relay: the calls made so far are
    threaded through, and kept when an exception is raised. *)
Definition session (A : Type) : Type :=
  list smtp_call -> result A * list smtp_call.

#[global] Instance session_ret : MRet session := fun A a log => (Return a, log).

#[global] Instance session_bind : MBind session := fun A B k m log =>
  match m log with
  | (Return a, log') => k a log'
  | (Raise e, log') => (Raise e, log')
  end.

(** A computation that makes no call. *)
Definition pure {A} (m : result A) : session A := fun log => (m, log).

Section SendEmail.

Variables EMAIL_USER EMAIL_PASS : option string.

(** [msg.as_string()]: the serialised message, or the exception of the
    email package. *)
Variable as_string : message -> result string.

(** The relay: whether a call succeeds. *)
Variable relay : smtp_call -> result unit.

(** One call on the relay, recorded whether it succeeds or not. *)
Definition call (c : smtp_call) : session unit :=
  fun log => (relay c, (log ++ [c])%list).

(** Lines 150-182. *)
Definition deliver (data : json) : session response :=
  to_email ← pure (Py.get data "to_email" JNull);
  to_name ← pure (Py.get data "to_name" JNull);
  plan_text ← pure (Py.get data "plan_text" JNull);
  exam_type ← pure (Py.get data "type" JNull);
  if negb (Py.all [to_email; plan_text; exam_type])
  then mret missing_parameters
  else
    let msg := {| msg_type := exam_type;
                  msg_from := EMAIL_USER;
                  msg_to := to_email;
                  msg_name := Op.or_ to_name (JStr "Student");
                  msg_plan := plan_text |} in
    _ ← call (Connect "smtp.gmail.com" 587);
    _ ← call StartTLS;
    _ ← call (Login EMAIL_USER EMAIL_PASS);
    payload ← pure (as_string msg);
    _ ← call (SendMail EMAIL_USER to_email payload);
    _ ← call Quit;
    mret email_sent.

(** Lines 148-186: the handler with its [except Exception] clause, and
    the calls it made on the relay. *)
Definition send_email (data : json) : response * list smtp_call :=
  match deliver data [] with
  | (Return r, log) => (r, log)
  | (Raise _, log) => (email_failed, log)
  end.

End SendEmail.

(* ================================================================== *)
(** * POST /submit-feedback *)
(* ================================================================== *)

(** The document added to the [feedback] collection; its [timestamp] is
    the sentinel [firestore.SERVER_TIMESTAMP], set by the store. *)
Record feedback_entry := {
  exam_type : json;
  rating : json;
  comment : json;
  plan_excerpt : json
}.

(** Line 204. *)
Definition feedback_stored : response :=
  {| status := 200;
     body := jsonify [("message", JStr "Feedback stored in Firebase")] |}.

(** Line 208. *)
Definition feedback_failed : response :=
  {| status := 500; body := error_body "Feedback submission failed" |}.

Section SubmitFeedback.

(** [db.collection("feedback").add(entry)]: whether the write
    succeeds. *)
Variable add : feedback_entry -> result unit.

(** Lines 189-208: the handler and the documents it added. *)
Definition submit_feedback (data : json) : response * list feedback_entry :=
  match
    exam_type ← Py.get data "exam_type" JNull;
    rating ← Py.get data "rating" JNull;
    comment ← Py.get data "comment" JNull;
    plan_excerpt ← Py.get data "plan_text" (JStr "") ≫= Op.slice_to 100;
    let feedback_entry := {| exam_type := exam_type; rating := rating;
                             comment := comment;
                             plan_excerpt := plan_excerpt |} in
    _ ← add feedback_entry;
    mret feedback_entry
  with
  | Return entry => (feedback_stored, [entry])
  | Raise _ => (feedback_failed, [])
  end.

End SubmitFeedback.

(* ================================================================== *)
(** * Start-up: the catalog *)
(* ================================================================== *)

(** Lines 43-48: [df] is the table [pd.read_csv] returns, or the
    [pd.DataFrame()] of the [except] clause when it raises. *)
Definition load_catalog (read_csv : result (list CourseRow)) : DataFrame :=
  match read_csv with
  | Return rows => Frame rows
  | Raise _ => NoColumns
  end.

(* ================================================================== *)
(** * POST /career-insights *)
(* ================================================================== *)

(** Line 217. *)
Definition goal_missing : response :=
  {| status := 400; body := error_body "Career goal missing" |}.

(** Line 244. *)
Definition insights_response (content : json) : response :=
  {| status := 200; body := jsonify [("insights", content)] |}.

(** Line 246. *)
Definition no_insights_found (gemini_response : json) : response :=
  {| status := 500;
     body := jsonify [("error", JStr "No insights found");
                      ("details", gemini_response)] |}.

(** Line 250. *)
Definition insights_failed : response :=
  {| status := 500; body := error_body "Failed to fetch insights" |}.

Section CareerInsights.

(** [requests.post] on the prompt built from the goal: the response,
    or the exception of a failed call. *)
Variable post_goal : string -> result http_response.

(** Lines 242-246. *)
Definition read_insights (gemini_response : json) : result response :=
  has ← Op.contains "candidates" gemini_response;
  if (has : bool) then
    candidates ← Op.getitem gemini_response "candidates";
    candidate ← Op.first candidates;
    content ← Op.getitem candidate "content";
    parts ← Op.getitem content "parts";
    part ← Op.first parts;
    content ← Op.getitem part "text";
    mret (insights_response content)
  else
    mret (no_insights_found gemini_response).

(** Line 214: [data.get("goal", "").strip().lower()]. *)
Definition read_goal (data : json) : result string :=
  goal ← Py.get data "goal" (JStr "") ≫= Py.as_str;
  mret (Str.lower (Str.strip goal)).

(** Lines 211-250: the handler with its [except Exception] clause, and
    the goals it posted a prompt for. *)
Definition career_insights (data : json) : response * list string :=
  match read_goal data with
  | Raise _ => (insights_failed, [])
  | Return goal =>
      if negb (Py.truthy (JStr goal))
      then (goal_missing, [])
      else
        (match
            response ← post_goal goal;
            gemini_response ← json_of response;
            read_insights gemini_response
          with
          | Return r => r
          | Raise _ => insights_failed
          end,
         [goal])
  end.

End CareerInsights.

(* ================================================================== *)
(** * Vocabulary of the statements *)
(* ================================================================== *)

(** [body[k]] of a response whose body is an object. *)
Definition field (k : string) (j : json) : option json :=
  match j with
  | JObj m => m !! k
  | _ => None
  end.

(** What a tier asks of one row; [found] is the search of the compiled
    goal. *)
Definition accepts (found : string -> bool) (p : profile) (t : tier)
    (r : CourseRow) : bool :=
  found (Str.lower (career_goal r))
  && Float.leb (personality_min_gpa r) (gpa p)
  && (relax_budget_of t
      || ((min_budget r <=? budget p) && (max_budget r >=? budget p)))
  && (drop_style_of t
      || String.eqb (Str.lower (learning_style r)) (style p)).

(** The Strict tier as the specification words it: the goal is looked
    for as a substring. *)
Definition strict_spec (p : profile) (r : CourseRow) : bool :=
  Str.contains (goal p) (Str.lower (career_goal r))
  && Float.leb (personality_min_gpa r) (gpa p)
  && ((min_budget r <=? budget p) && (budget p <=? max_budget r))
  && String.eqb (Str.lower (learning_style r)) (style p).


(** A pattern without any special character. *)
Definition plain (pat : string) : bool :=
  Str.forallb (fun c => negb (Re.is_special c)) pat.

(** The atoms of a plain pattern. *)
Fixpoint literal (pat : string) : list Re.atom :=
  match pat with
  | EmptyString => []
  | String c pat' => Re.Lit c :: literal pat'
  end.

(** [t'] is tried before [t]. *)
Definition before (t' t : tier) : Prop := (tier_rank t' < tier_rank t)%nat.

(** Settles what is asked of the tiers tried before a given tier, from
    the hypotheses on the tiers that are. *)
Ltac earlier_tiers :=
  let t' := fresh "t'" in
  let H := fresh "H" in
  intros t' H; unfold before in H; destruct t'; simpl in H;
  (lia || assumption).


(** No pattern outside the modelled families compiles. *)
Definition no_other : string -> result (string -> bool) :=
  fun _ => Raise ReError.

Module Ex.

Definition request (personality : string) (gpa : json) (career_goal : string)
    (budget : Z) (learning_style : string) : json :=
  jsonify [("personality", JStr personality); ("gpa", gpa);
           ("career_goal", JStr career_goal); ("budget", JInt budget);
           ("learning_style", JStr learning_style)].

(** The scenario of the specification. *)
Definition msds : CourseRow :=
  {| career_goal := "data science";
     personality_min_gpa := Float.of_Z 3;
     min_budget := 1000; max_budget := 5000;
     learning_style := "visual";
     recommended_course := "MSDS"; university := "X"; country := "US" |}.

Definition intj : json :=
  request "INTJ" (JFloat (Float.of_decimal false 35 (-1))) "data" 3000 "visual".


Definition imaging : CourseRow :=
  {| career_goal := "Medical Imaging";
     personality_min_gpa := Float.of_Z 3;
     min_budget := 1000; max_budget := 5000;
     learning_style := "Visual";
     recommended_course := "MSc Radiography"; university := "Y";
     country := "UK" |}.

(** An applicant who writes the goal as "A.I". *)
Definition ai : json :=
  request "INTJ" (JFloat (Float.of_decimal false 35 (-1))) "A.I" 3000 "visual".

(** A row for the undecided, and an applicant who answers "?". *)
Definition undecided : CourseRow :=
  {| career_goal := "Undecided?";
     personality_min_gpa := Float.of_Z 3;
     min_budget := 1000; max_budget := 5000;
     learning_style := "visual";
     recommended_course := "Foundation Year"; university := "Z";
     country := "CA" |}.

Definition unsure : json :=
  request "INTJ" (JFloat (Float.of_decimal false 35 (-1))) "?" 3000 "visual".

(** A row open to any GPA, and an applicant with a GPA of -1. *)
Definition open_row : CourseRow :=
  {| career_goal := "data science";
     personality_min_gpa := Float.of_Z (-5);
     min_budget := 1000; max_budget := 5000;
     learning_style := "visual";
     recommended_course := "MSDS"; university := "X"; country := "US" |}.


(** A GPA that is not a number. *)
Definition not_numeric : json :=
  request "INTJ" (JStr "abc") "data" 3000 "visual".


(** The text service answering 200 with the document [j]. *)
Definition ok_response (j : json) : http_response :=
  {| status_code := 200; text := ""; json_of := Return j |}.

Definition answers (j : json) : plan_request -> result http_response :=
  fun _ => Return (ok_response j).

Definition no_message : exn -> string := fun _ => "".

Definition plan_request_defaults : plan_request :=
  {| exam := JStr "GRE"; score := JStr "300"; weeks := JStr "6";
     weak_areas := JStr "general preparation" |}.

(** A mail request without [plan_text], and one with an empty one. *)
Definition mail_without_plan : gmap string json :=
  list_to_map [("to_email", JStr "a@b.c"); ("type", JStr "GRE")].

Definition mail_with_empty_plan : gmap string json :=
  list_to_map [("to_email", JStr "a@b.c"); ("plan_text", JStr "");
               ("type", JStr "GRE")].

Definition serialised : message -> result string := fun _ => Return "".

Definition relay_up : smtp_call -> result unit := fun _ => Return tt.

Fixpoint stars (n : nat) : string :=
  match n with
  | O => EmptyString
  | S n' => String "*" (stars n')
  end.

(** A feedback whose plan has 150 characters. *)
Definition long_feedback : gmap string json :=
  list_to_map [("exam_type", JStr "GRE"); ("rating", JInt 5);
               ("plan_text", JStr (stars 150))].

Definition store_up : feedback_entry -> result unit := fun _ => Return tt.


Definition intj_profile : profile :=
  {| gpa := Float.of_decimal false 35 (-1); goal := "data";
     budget := 3000; style := "visual" |}.

End Ex.

(* ================================================================== *)
(** * Vocabulary of the further statements *)
(* ================================================================== *)

(** What every tier asks of a row: the goal is found in its career goal
    and its threshold is at most the GPA. *)
Definition goal_and_gpa (found : string -> bool) (p : profile)
    (r : CourseRow) : bool :=
  found (Str.lower (career_goal r))
  && Float.leb (personality_min_gpa r) (gpa p).

Definition is_str (v : json) : bool :=
  match v with
  | JStr _ => true
  | _ => false
  end.

Definition is_obj (v : json) : bool :=
  match v with
  | JObj _ => true
  | _ => false
  end.

(** The text fields [analyze_profile] calls a [str] method on. *)
Definition text_field (k : string) : Prop :=
  k = "personality" \/ k = "career_goal" \/ k = "learning_style".

(** The row with its two matched text columns in lower case. *)
Definition lower_row (r : CourseRow) : CourseRow :=
  {| career_goal := Str.lower (career_goal r);
     personality_min_gpa := personality_min_gpa r;
     min_budget := min_budget r;
     max_budget := max_budget r;
     learning_style := Str.lower (learning_style r);
     recommended_course := recommended_course r;
     university := university r;
     country := country r |}.

(** [s] does not start with a blank. *)
Definition clean_head (s : string) : bool :=
  match s with
  | EmptyString => true
  | String c _ => negb (Str.isspace c)
  end.

(** What lines 62 and 64 make of a text field. *)
Definition normal (s : string) : string := Str.strip (Str.lower s).

(** The structural reading of [rstrip]: a character is dropped when it
    is a blank and nothing is kept after it. *)
Fixpoint rstrip_rec (s : string) : string :=
  match s with
  | EmptyString => EmptyString
  | String c s' =>
      match rstrip_rec s' with
      | EmptyString => if Str.isspace c then EmptyString
                       else String c EmptyString
      | r => String c r
      end
  end.

(** The response with another status code. *)
Definition with_status (code : Z) (r : http_response) : http_response :=
  {| status_code := code; text := text r; json_of := json_of r |}.

(** The calls of a delivery that goes through. *)
Definition delivery (user pass : option string) (to_email : json)
    (payload : string) : list smtp_call :=
  [Connect "smtp.gmail.com" 587; StartTLS; Login user pass;
   SendMail user to_email payload; Quit].

(** A body of /career-insights that is a JSON object without [goal], or
    whose [goal] is a string that is empty or made of blanks. *)
Definition goal_blank (data : json) : Prop :=
  is_obj data = true
  /\ (field "goal" data = None
      \/ exists g, field "goal" data = Some (JStr g) /\ Str.strip g = "").

(** The values [v[:100]] is defined on. *)
Definition sliceable (v : json) : bool :=
  match v with
  | JStr _ | JArr _ => true
  | _ => false
  end.

(** The message [send_email] builds from the fields of a request. *)
Definition message_of (user : option string) (m : gmap string json)
    : message :=
  {| msg_type := default JNull (m !! "type");
     msg_from := user;
     msg_to := default JNull (m !! "to_email");
     msg_name := Op.or_ (default JNull (m !! "to_name")) (JStr "Student");
     msg_plan := default JNull (m !! "plan_text") |}.

(** The characters [int()] accepts in a [str]. *)
Definition int_char (c : ascii) : bool :=
  Num.is_blank c || Num.is_digit c || Str.mem c "+-_".

Module Ex2.

(** A request that gives a GPA only. *)
Definition gpa_only : gmap string json := {[ "gpa" := JInt 4 ]}.

Definition gpa_only_profile : profile :=
  {| gpa := Float.of_Z 4; goal := ""; budget := 0; style := "" |}.

(** A GPA that is not a number. *)
Definition nan_request : json :=
  Ex.request "INTJ" (JStr "nan") "data" 3000 "visual".

Definition nan_profile : profile :=
  {| gpa := S754_nan; goal := "data"; budget := 3000; style := "visual" |}.

(** A row out of reach of a GPA of 3.5. *)
Definition phd : CourseRow :=
  {| career_goal := "Data Science";
     personality_min_gpa := Float.of_Z 9;
     min_budget := 1000; max_budget := 5000;
     learning_style := "visual";
     recommended_course := "PhD"; university := "W"; country := "DE" |}.

(** A request whose goal is [null]. *)
Definition null_goal : gmap string json :=
  {[ "gpa" := JInt 4; "career_goal" := JNull ]}.

(** The goal and the style written with capitals and blanks. *)
Definition shouted : gmap string json :=
  list_to_map [("gpa", JFloat (Float.of_decimal false 35 (-1)));
               ("career_goal", JStr "  DATA ");
               ("budget", JInt 3000);
               ("learning_style", JStr " Visual")].

(** An answer of the text service with one candidate of two parts. *)
Definition two_parts : gmap string json :=
  {[ "candidates" :=
       JArr [jsonify
               [("content",
                 jsonify
                   [("parts",
                     JArr [jsonify [("text", JStr "Week 1")];
                           jsonify [("text", JStr "Week 2")]])])]] ]}.

Definition first_candidate : gmap string json :=
  {[ "content" :=
       jsonify [("parts", JArr [jsonify [("text", JStr "Week 1")];
                                jsonify [("text", JStr "Week 2")]])] ]}.

Definition first_content : gmap string json :=
  {[ "parts" := JArr [jsonify [("text", JStr "Week 1")];
                      jsonify [("text", JStr "Week 2")]] ]}.

Definition first_part : gmap string json := {[ "text" := JStr "Week 1" ]}.

(** The text service refusing the call with the status 429. *)
Definition throttled : http_response :=
  {| status_code := 429; text := "quota exceeded";
     json_of := Return (jsonify [("error", JStr "quota")]) |}.

(** An answer without any candidate. *)
Definition no_candidate : gmap string json := {[ "candidates" := JArr [] ]}.

(** The goal service answering with the document [j]. *)
Definition tells (j : json) : string -> result http_response :=
  fun _ => Return (Ex.ok_response j).

Definition insights_request : gmap string json :=
  {[ "goal" := JStr "  Data Scientist " ]}.

Definition blank_goal : gmap string json := {[ "goal" := JStr "   " ]}.

(** A complete mail request. *)
Definition mail : gmap string json :=
  list_to_map [("to_email", JStr "a@b.c"); ("plan_text", JStr "plan");
               ("type", JStr "GRE")].

Definition mail_message : message :=
  {| msg_type := JStr "GRE"; msg_from := Some "me"; msg_to := JStr "a@b.c";
     msg_name := JStr "Student"; msg_plan := JStr "plan" |}.

(** A relay that refuses the login. *)
Definition relay_no_login : smtp_call -> result unit :=
  fun c => match c with
           | Login _ _ => Raise UpstreamError
           | _ => Return tt
           end.

(** A feedback with a short plan, and one whose plan is [null]. *)
Definition short_feedback : gmap string json :=
  list_to_map [("rating", JInt 4); ("plan_text", JStr "Week 1: verbs")].

Definition null_plan_feedback : gmap string json :=
  list_to_map [("rating", JInt 4); ("plan_text", JNull)].

(** A budget written with a decimal point. *)
Definition decimal_budget : gmap string json :=
  list_to_map [("gpa", JInt 4); ("budget", JStr "2500.50")].

End Ex2.

(* ================================================================== *)
(** * The pandas operations as list functions *)
(* ================================================================== *)

Lemma and_map {A} (f g : A -> bool) (l : list A) :
  Pd.and_ (map f l) (map g l) = map (fun x => f x && g x) l.
Proof. induction l as [|x l IH]; simpl; [reflexivity | now rewrite IH]. Qed.

Lemma select_map {A} (f : A -> bool) (l : list A) :
  Pd.select l (map f l) = List.filter f l.
Proof.
  induction l as [|x l IH]; simpl; [reflexivity|].
  destruct (f x); now rewrite IH.
Qed.

(* ================================================================== *)
(** * The filter of a tier *)
(* ================================================================== *)

Section FilterFacts.

Variable re_other : string -> result (string -> bool).

Lemma run_filter_no_columns p strict drop_style relax_budget :
  run_filter re_other NoColumns p strict drop_style relax_budget
  = Raise KeyError.
Proof. reflexivity. Qed.

Lemma run_filter_bad_pattern rows p e strict drop_style relax_budget :
  Re.compile re_other (goal p) = Raise e ->
  run_filter re_other (Frame rows) p strict drop_style relax_budget = Raise e.
Proof. intros H. unfold run_filter, Pd.str_contains. simpl. now rewrite H. Qed.

(** On a table, a tier keeps the rows it accepts, in table order. *)
Lemma run_tier_frame rows p found t :
  Re.compile re_other (goal p) = Return found ->
  run_tier re_other (Frame rows) p t
  = Return (List.filter (accepts found p t) rows).
Proof.
  intros H. unfold run_tier, run_filter, Pd.str_contains, Pd.str_lower.
  simpl. rewrite H. simpl.
  rewrite !map_map, and_map.
  destruct t; simpl; rewrite ?map_map, ?and_map, select_map;
    f_equal; apply filter_ext; intros r; unfold accepts; simpl;
    rewrite ?andb_true_r; reflexivity.
Qed.

End FilterFacts.

(** Each tier accepts what the tier before it accepts. *)
Lemma accepts_relaxed found p t' t r :
  (tier_rank t' <= tier_rank t)%nat ->
  accepts found p t' r = true -> accepts found p t r = true.
Proof.
  unfold accepts. intros Hle H.
  apply andb_true_iff in H as [H Hstyle].
  apply andb_true_iff in H as [H Hbudget].
  rewrite H. simpl.
  destruct t', t; simpl in *; try lia;
    rewrite ?Hbudget, ?Hstyle; reflexivity.
Qed.

(* ================================================================== *)
(** * Plain patterns are searched as substrings *)
(* ================================================================== *)

Lemma startswith_spec p s :
  Str.startswith p s = true <-> exists b, s = (p ++ b)%string.
Proof.
  revert s. induction p as [|a p IH]; intros s; simpl.
  - split; [intros _; exists s; reflexivity | reflexivity].
  - destruct s as [|c s].
    + split; [discriminate | intros [b Hb]; discriminate].
    + rewrite andb_true_iff, Ascii.eqb_eq, IH. split.
      * intros [-> [b ->]]. exists b. reflexivity.
      * intros [b [= -> ->]]. split; [reflexivity | exists b; reflexivity].
Qed.

(** [Str.contains p s] holds exactly when [p] is a contiguous part of
    [s]. *)
Lemma contains_spec p s :
  Str.contains p s = true <-> exists a b, s = (a ++ p ++ b)%string.
Proof.
  induction s as [|c s IH]; simpl; rewrite orb_true_iff, startswith_spec.
  - split.
    + intros [[b Hb]|H]; [|discriminate]. exists EmptyString, b. exact Hb.
    + intros (a & b & H). left. destruct a; [|discriminate].
      exists b. exact H.
  - rewrite IH. split.
    + intros [[b Hb]|(a & b & ->)].
      * exists EmptyString, b. exact Hb.
      * exists (String c a), b. reflexivity.
    + intros (a & b & H). destruct a as [|c' a].
      * left. exists b. exact H.
      * right. injection H as -> ->. exists a, b. reflexivity.
Qed.

Lemma special_dot : Re.is_special "." = true.
Proof. reflexivity. Qed.

Lemma parse_plain pat : plain pat = true -> Re.parse pat = Some (literal pat).
Proof.
  induction pat as [|c pat IH]; simpl; [reflexivity|].
  intros H. apply andb_true_iff in H as [Hc Hp].
  destruct (Ascii.eqb_spec c ".") as [->|_].
  - rewrite special_dot in Hc. discriminate.
  - apply negb_true_iff in Hc. rewrite Hc, (IH Hp). reflexivity.
Qed.

Lemma match_here_literal pat s :
  Re.match_here (literal pat) s = Str.startswith pat s.
Proof.
  revert s. induction pat as [|c pat IH]; intros [|d s]; simpl;
    try reflexivity.
  now rewrite IH.
Qed.

Lemma search_literal pat s : Re.search (literal pat) s = Str.contains pat s.
Proof.
  induction s as [|d s IH]; simpl; rewrite match_here_literal;
    [reflexivity | now rewrite IH].
Qed.

Lemma plain_no_repeat pat :
  plain pat = true -> Re.starts_with_repeat pat = false.
Proof.
  destruct pat as [|c pat]; [reflexivity|].
  unfold plain, Re.starts_with_repeat, Re.is_special. simpl Str.forallb.
  intros H. apply andb_true_iff in H as [Hc _].
  apply negb_true_iff in Hc. simpl in Hc |- *.
  destruct (Ascii.eqb c "*"); [now rewrite ?orb_true_r in Hc|].
  destruct (Ascii.eqb c "+"); [now rewrite ?orb_true_r in Hc|].
  destruct (Ascii.eqb c "?"); [now rewrite ?orb_true_r in Hc|].
  reflexivity.
Qed.

(** A goal without special characters compiles, whatever the rest of the
    pattern language is, and is found where it occurs as a substring. *)
Lemma compile_plain re_other pat :
  plain pat = true ->
  Re.compile re_other pat = Return (Re.search (literal pat))
  /\ forall s, Re.search (literal pat) s = Str.contains pat s.
Proof.
  intros H. split; [|apply search_literal].
  unfold Re.compile. now rewrite (plain_no_repeat _ H), (parse_plain _ H).
Qed.

(** With a plain goal the Strict tier is the one of the specification. *)
Lemma strict_tier_plain_goal re_other rows p :
  plain (goal p) = true ->
  run_tier re_other (Frame rows) p Strict
  = Return (List.filter (strict_spec p) rows).
Proof.
  intros H. destruct (compile_plain re_other _ H) as [Hc Hs].
  rewrite (run_tier_frame _ _ _ _ _ Hc). f_equal.
  apply filter_ext. intros r. unfold accepts, strict_spec. simpl.
  rewrite Hs, Z.geb_leb. reflexivity.
Qed.

(* ================================================================== *)
(** * The three tiers of [analyze_profile] *)
(* ================================================================== *)

Section Tiers.

Variable re_other : string -> result (string -> bool).
Variable df : DataFrame.
Variable p : profile.

(** The first tier with a row decides. *)
Lemma match_profile_first t matched :
  run_tier re_other df p t = Return matched -> matched <> [] ->
  (forall t', before t' t -> run_tier re_other df p t' = Return []) ->
  match_profile re_other df p
  = (s ← match_score (gpa p); mret (match_result (firstn 3 matched) s)).
Proof.
  unfold run_tier, before. intros Ht Hne Hbefore.
  destruct matched as [|r matched]; [congruence|].
  pose proof (Hbefore Strict) as H0. pose proof (Hbefore DropStyle) as H1.
  unfold match_profile.
  destruct t; simpl in *.
  - rewrite Ht. reflexivity.
  - rewrite H0 by lia. simpl. rewrite Ht. reflexivity.
  - rewrite H0 by lia. simpl. rewrite H1 by lia. simpl.
    rewrite Ht. reflexivity.
Qed.

Lemma match_profile_none :
  (forall t, run_tier re_other df p t = Return []) ->
  match_profile re_other df p = Return not_found.
Proof.
  unfold run_tier. intros H. unfold match_profile.
  pose proof (H Strict) as H0. pose proof (H DropStyle) as H1.
  pose proof (H DropStyleRelaxBudget) as H2. simpl in H0, H1, H2.
  rewrite H0. simpl. rewrite H1. simpl. rewrite H2. reflexivity.
Qed.

Lemma match_profile_raise t e :
  run_tier re_other df p t = Raise e ->
  (forall t', before t' t -> run_tier re_other df p t' = Return []) ->
  match_profile re_other df p = Raise e.
Proof.
  unfold run_tier, before. intros Ht Hbefore.
  pose proof (Hbefore Strict) as H0. pose proof (Hbefore DropStyle) as H1.
  unfold match_profile.
  destruct t; simpl in *.
  - rewrite Ht. reflexivity.
  - rewrite H0 by lia. simpl. rewrite Ht. reflexivity.
  - rewrite H0 by lia. simpl. rewrite H1 by lia. simpl.
    rewrite Ht. reflexivity.
Qed.

(** Every outcome of the matcher is one of the three above. *)
Lemma match_profile_cases :
  (forall t, run_tier re_other df p t = Return [])
  \/ (exists t matched,
        run_tier re_other df p t = Return matched /\ matched <> []
        /\ forall t', before t' t -> run_tier re_other df p t' = Return [])
  \/ (exists t e, run_tier re_other df p t = Raise e
        /\ forall t', before t' t -> run_tier re_other df p t' = Return []).
Proof.
  assert (Hb0 : forall t', before t' Strict ->
                           run_tier re_other df p t' = Return []).
  { earlier_tiers. }
  destruct (run_tier re_other df p Strict) as [[|r1 l1]|e1] eqn:E1;
    [| right; left; exists Strict; eauto using nil_cons
     | right; right; exists Strict; eauto ].
  assert (Hb1 : forall t', before t' DropStyle ->
                           run_tier re_other df p t' = Return []).
  { earlier_tiers. }
  destruct (run_tier re_other df p DropStyle) as [[|r2 l2]|e2] eqn:E2;
    [| right; left; exists DropStyle; eauto using nil_cons
     | right; right; exists DropStyle; eauto ].
  assert (Hb2 : forall t', before t' DropStyleRelaxBudget ->
                           run_tier re_other df p t' = Return []).
  { earlier_tiers. }
  destruct (run_tier re_other df p DropStyleRelaxBudget)
    as [[|r3 l3]|e3] eqn:E3;
    [ left; intros []; assumption
    | right; left; exists DropStyleRelaxBudget; eauto using nil_cons
    | right; right; exists DropStyleRelaxBudget; eauto ].
Qed.

End Tiers.

Lemma field_courses top s :
  field "recommended_courses" (body (match_result top s))
  = Some (tolist (map recommended_course top)).
Proof. reflexivity. Qed.

Lemma field_universities top s :
  field "top_universities" (body (match_result top s))
  = Some (tolist (map university top)).
Proof. reflexivity. Qed.

Lemma field_countries top s :
  field "recommended_countries" (body (match_result top s))
  = Some (tolist (map country top)).
Proof. reflexivity. Qed.

Lemma field_score top s :
  field "match_score" (body (match_result top s)) = Some (JInt s).
Proof. reflexivity. Qed.

Lemma run_tier_inv re_other df p t matched :
  run_tier re_other df p t = Return matched ->
  exists rows found,
    df = Frame rows
    /\ Re.compile re_other (goal p) = Return found
    /\ matched = List.filter (accepts found p t) rows.
Proof.
  intros H. destruct df as [rows|]; [|discriminate].
  destruct (Re.compile re_other (goal p)) as [found|e] eqn:E.
  - rewrite (run_tier_frame _ _ _ _ _ E) in H. injection H as <-. eauto.
  - unfold run_tier in H. rewrite (run_filter_bad_pattern _ _ _ _ _ _ _ E) in H.
    discriminate.
Qed.

Lemma analyze_profile_read re_other df data p :
  read_profile data = Return p ->
  analyze_profile re_other df data
  = match match_profile re_other df p with
    | Return r => r
    | Raise _ => analysis_failed
    end.
Proof. intros H. unfold analyze_profile. rewrite H. reflexivity. Qed.

Lemma analyze_profile_unread re_other df data e :
  read_profile data = Raise e ->
  analyze_profile re_other df data = analysis_failed.
Proof. intros H. unfold analyze_profile. rewrite H. reflexivity. Qed.

(** A goal that does not compile fails the analysis. *)
Lemma analyze_profile_bad_pattern re_other df data p e :
  read_profile data = Return p ->
  Re.compile re_other (goal p) = Raise e ->
  analyze_profile re_other df data = analysis_failed.
Proof.
  intros Hp He. rewrite (analyze_profile_read _ _ _ _ Hp).
  destruct df as [rows|]; [|reflexivity].
  rewrite (match_profile_raise re_other (Frame rows) p Strict e).
  - reflexivity.
  - now apply run_filter_bad_pattern.
  - earlier_tiers.
Qed.







(* ================================================================== *)
(** * The match score *)
(* ================================================================== *)

Lemma trunc_quot f : Float.trunc f = Z.quot (Float.num f) (Float.den f).
Proof.
  destruct f as [s|s| |s m e]; try reflexivity.
  unfold Float.trunc, Float.num, Float.den.
  destruct e as [|k|k].
  - simpl Z.max. rewrite Z.pow_0_r, Z.quot_1_r, Z.shiftl_0_r, Z.mul_1_r.
    reflexivity.
  - rewrite Z.max_r by lia. simpl Z.opp. rewrite Z.max_l by lia.
    rewrite Z.pow_0_r, Z.quot_1_r, Z.shiftl_mul_pow2 by lia. reflexivity.
  - rewrite Z.max_l by lia. simpl Z.opp. rewrite Z.max_r by lia.
    rewrite Z.pow_0_r, Z.mul_1_r, Z.shiftr_div_pow2 by lia.
    assert (Hpow : 0 < 2 ^ Z.pos k) by (apply Z.pow_pos_nonneg; lia).
    destruct s; simpl cond_Zopp.
    + change (Z.neg m) with (- Z.pos m).
      rewrite Z.quot_opp_l by lia.
      rewrite Z.quot_div_nonneg by lia. reflexivity.
    + rewrite Z.quot_div_nonneg by lia. reflexivity.
Qed.





Lemma match_score_finite g :
  Float.is_finite (Float.mul g (Float.of_Z 10)) = true ->
  match_score g
  = Return (Z.min 100 (Float.trunc (Float.mul g (Float.of_Z 10)))).
Proof.
  unfold match_score. destruct (Float.mul g (Float.of_Z 10)); simpl;
    intros H; try discriminate; reflexivity.
Qed.

(* ================================================================== *)
(** * What a successful analysis went through *)
(* ================================================================== *)

Lemma read_profile_gpa data p :
  read_profile data = Return p ->
  Py.get data "gpa" (JInt 0) ≫= Py.float = Return (gpa p).
Proof.
  unfold read_profile.
  destruct (Py.get data "personality" (JStr "") ≫= Py.as_str);
    [|discriminate].
  simpl.
  destruct (Py.get data "gpa" (JInt 0) ≫= Py.float) as [g|]; [|discriminate].
  simpl.
  destruct (Py.get data "career_goal" (JStr "") ≫= Py.as_str);
    [|discriminate].
  simpl.
  destruct (Py.get data "budget" (JInt 0) ≫= Py.int); [|discriminate].
  simpl.
  destruct (Py.get data "learning_style" (JStr "") ≫= Py.as_str);
    [|discriminate].
  simpl. intros [= <-]. reflexivity.
Qed.

Lemma analyze_profile_ok_inv re_other df data :
  status (analyze_profile re_other df data) = 200 ->
  exists p t matched s,
    read_profile data = Return p
    /\ run_tier re_other df p t = Return matched /\ matched <> []
    /\ (forall t', before t' t -> run_tier re_other df p t' = Return [])
    /\ match_score (gpa p) = Return s
    /\ analyze_profile re_other df data = match_result (firstn 3 matched) s.
Proof.
  destruct (read_profile data) as [p|e] eqn:Hp.
  - rewrite (analyze_profile_read _ _ _ _ Hp).
    destruct (match_profile_cases re_other df p)
      as [H|[(t & matched & Ht & Hne & Hb)|(t & e & Ht & Hb)]].
    + rewrite (match_profile_none _ _ _ H). discriminate.
    + rewrite (match_profile_first _ _ _ _ _ Ht Hne Hb).
      destruct (match_score (gpa p)) as [s|e] eqn:Hs; [|simpl; discriminate].
      intros _. exists p, t, matched, s.
      repeat split; assumption || reflexivity.
    + rewrite (match_profile_raise _ _ _ _ _ Ht Hb). discriminate.
  - rewrite (analyze_profile_unread _ _ _ _ Hp). discriminate.
Qed.

(** C4.  The score is min(100, int(gpa * 10)): the product is the float
    product, the conversion drops the fraction of its value (the quotient
    of numerator by denominator, rounded towards zero).  It is computed
    whenever the product is finite; the score of a returned match is this
    value for the GPA of the request, whatever the tier and the rows; the
    GPAs 7.5, 11 and 0 score 75, 100 and 0. *)
Theorem match_score_truncates :
  (forall g,
      let x := Float.mul g (Float.of_Z 10) in
      Float.is_finite x = true ->
      match_score g = Return (Z.min 100 (Z.quot (Float.num x) (Float.den x))))
  /\ (forall re_other df data,
         status (analyze_profile re_other df data) = 200 ->
         exists g s,
           Py.get data "gpa" (JInt 0) ≫= Py.float = Return g
           /\ match_score g = Return s
           /\ field "match_score" (body (analyze_profile re_other df data))
              = Some (JInt s))
  /\ match_score (Float.of_decimal false 75 (-1)) = Return 75
  /\ match_score (Float.of_Z 11) = Return 100
  /\ match_score (Float.of_Z 0) = Return 0.
Proof.
  split; [|split; [|repeat split; vm_compute; reflexivity]].
  - intros g x Hx. subst x. rewrite <- trunc_quot.
    now apply match_score_finite.
  - intros re_other df data H.
    destruct (analyze_profile_ok_inv _ _ _ H)
      as (p & t & matched & s & Hp & _ & _ & _ & Hs & ->).
    exists (gpa p), s. split; [now apply read_profile_gpa|].
    split; [assumption|apply field_score].
Qed.

Lemma match_score_truncates_witness :
  match_score (Float.of_decimal false 35 (-1)) = Return 35
  /\ exists g s,
       Py.get Ex.intj "gpa" (JInt 0) ≫= Py.float = Return g
       /\ match_score g = Return s
       /\ field "match_score"
            (body (analyze_profile no_other (Frame [Ex.msds]) Ex.intj))
          = Some (JInt s).
Proof.
  destruct match_score_truncates as (H1 & H2 & _).
  split.
  - rewrite (H1 (Float.of_decimal false 35 (-1))) by (vm_compute; reflexivity).
    vm_compute. reflexivity.
  - apply H2. vm_compute. reflexivity.
Defined.






(* ================================================================== *)
(** * Requests whose numbers cannot be read *)
(* ================================================================== *)

Lemma get_obj (m : gmap string json) k d :
  Py.get (JObj m) k d = Return (default d (m !! k)).
Proof. simpl. destruct (m !! k); reflexivity. Qed.

Lemma read_profile_not_numeric (m : gmap string json) :
  raises (Py.float (default (JInt 0) (m !! "gpa")))
  \/ raises (Py.int (default (JInt 0) (m !! "budget"))) ->
  raises (read_profile (JObj m)).
Proof.
  unfold read_profile. rewrite !get_obj.
  intros H.
  destruct (Return (default (JStr "") (m !! "personality")) ≫= Py.as_str)
    as [x|e]; [|exists e; reflexivity].
  cbn [mbind result_bind].
  destruct (Py.float (default (JInt 0) (m !! "gpa"))) as [g|e] eqn:Eg;
    [|exists e; reflexivity].
  destruct (Py.as_str (default (JStr "") (m !! "career_goal")))
    as [c|e]; [|exists e; reflexivity].
  destruct H as [[e H]|[e H]]; [discriminate|].
  rewrite H. exists e. reflexivity.
Qed.

(** C6 (amended).  A request whose [gpa] is not accepted by [float()], or
    whose [budget] is not accepted by [int()], is answered with the 500
    "Profile analysis failed". *)
Theorem analyze_profile_not_numeric re_other df (m : gmap string json) :
  raises (Py.float (default (JInt 0) (m !! "gpa")))
  \/ raises (Py.int (default (JInt 0) (m !! "budget"))) ->
  analyze_profile re_other df (JObj m) = analysis_failed.
Proof.
  intros H. destruct (read_profile_not_numeric m H) as [e He].
  now apply analyze_profile_unread with e.
Qed.

Lemma analyze_profile_not_numeric_witness :
  analyze_profile no_other (Frame [Ex.msds]) Ex.not_numeric = analysis_failed.
Proof.
  apply (analyze_profile_not_numeric no_other (Frame [Ex.msds])).
  left. exists ValueError. vm_compute. reflexivity.
Defined.

(** C6, as stated, fails: a GPA of "abc" is answered with the status 500,
    not 400. *)
Lemma not_numeric_is_not_400 :
  Py.float (JStr "abc") = Raise ValueError
  /\ field "gpa" Ex.not_numeric = Some (JStr "abc")
  /\ status (analyze_profile no_other (Frame [Ex.msds]) Ex.not_numeric) = 500
  /\ status (analyze_profile no_other (Frame [Ex.msds]) Ex.not_numeric) <> 400.
Proof.
  repeat split; try (vm_compute; reflexivity). vm_compute. discriminate.
Qed.

(* ================================================================== *)
(** * POST /generate-plan: answers without a usable text *)
(* ================================================================== *)

Section Plan.

Variable post : plan_request -> result http_response.
Variable exn_str : exn -> string.

Lemma generate_plan_read data request response gemini :
  read_plan_request data = Return request ->
  post request = Return response ->
  status_code response = 200 ->
  json_of response = Return gemini ->
  generate_plan post exn_str data
  = match read_plan gemini with
    | Return r => r
    | Raise e => plan_failed (exn_str e)
    end.
Proof.
  intros Hr Hp Hs Hj. unfold generate_plan.
  rewrite Hr. cbn [mbind result_bind]. rewrite Hp. cbn [mbind result_bind].
  rewrite Hs. simpl negb. cbv iota. rewrite Hj. reflexivity.
Qed.





End Plan.



(* ================================================================== *)
(** * POST /send-email: the parameter check *)
(* ================================================================== *)

Section Mail.

Variables user pass : option string.
Variable as_string : message -> result string.
Variable relay : smtp_call -> result unit.

(** Without the three parameters, no call is made on the relay. *)
Lemma send_email_falsy (m : gmap string json) :
  Py.all [default JNull (m !! "to_email");
          default JNull (m !! "plan_text");
          default JNull (m !! "type")] = false ->
  send_email user pass as_string relay (JObj m) = (missing_parameters, []).
Proof.
  intros H. unfold send_email, deliver, pure, mbind, session_bind.
  rewrite !get_obj. cbv beta iota. rewrite H. reflexivity.
Qed.

Lemma all_falsy a b c :
  Py.truthy a = false \/ Py.truthy b = false \/ Py.truthy c = false ->
  Py.all [a; b; c] = false.
Proof.
  unfold Py.all. simpl. intros [->|[->| ->]];
    rewrite ?andb_false_r; reflexivity.
Qed.

(** C8 (amended).  A request whose body is a JSON object without
    [to_email], [plan_text] or [type] is answered with the 400 "Missing
    email parameters"; a body that is not an object ([null], a list, a
    string, a number) has none of the fields and is answered with the
    500 "Failed to send email".  In both cases no call is made on the
    mail relay. *)
Theorem send_email_missing data :
  field "to_email" data = None \/ field "plan_text" data = None
  \/ field "type" data = None ->
  send_email user pass as_string relay data
  = (if is_obj data then missing_parameters else email_failed, []).
Proof.
  intros H. destruct data as [| | | | | |m]; try reflexivity.
  simpl in H. simpl is_obj. cbv iota. apply send_email_falsy, all_falsy.
  destruct H as [->|[->| ->]]; auto.
Qed.

(** C10.  A request whose [to_email], [plan_text] or [type] is the
    empty string is answered as if the field were absent: the 400
    "Missing email parameters", and no call on the mail relay. *)
Theorem send_email_empty (m : gmap string json) k :
  k = "to_email" \/ k = "plan_text" \/ k = "type" ->
  m !! k = Some (JStr "") ->
  send_email user pass as_string relay (JObj m) = (missing_parameters, [])
  /\ send_email user pass as_string relay (JObj m)
     = send_email user pass as_string relay (JObj (delete k m)).
Proof.
  intros Hk Hm.
  assert (H1 : send_email user pass as_string relay (JObj m)
               = (missing_parameters, [])).
  { apply send_email_falsy, all_falsy.
    destruct Hk as [->|[->| ->]]; rewrite Hm; auto. }
  split; [assumption|]. rewrite H1. symmetry.
  apply send_email_falsy, all_falsy.
  destruct Hk as [->|[->| ->]]; rewrite lookup_delete_eq; auto.
Qed.

End Mail.

Lemma send_email_missing_witness :
  send_email None None Ex.serialised Ex.relay_up (JObj Ex.mail_without_plan)
  = (missing_parameters, []).
Proof.
  apply (send_email_missing None None Ex.serialised Ex.relay_up
           (JObj Ex.mail_without_plan)).
  right. left. vm_compute. reflexivity.
Defined.

(** C8, as stated, fails: a request whose body is [null], or a list, has
    none of the three fields, and is answered with the status 500, not
    400. *)
Lemma missing_parameters_need_an_object :
  field "plan_text" JNull = None
  /\ field "plan_text" (JArr []) = None
  /\ send_email None None Ex.serialised Ex.relay_up JNull
     = (email_failed, [])
  /\ send_email None None Ex.serialised Ex.relay_up (JArr [])
     = (email_failed, [])
  /\ status email_failed = 500
  /\ status email_failed <> 400.
Proof.
  repeat split; try reflexivity. vm_compute. discriminate.
Qed.

Lemma send_email_empty_witness :
  send_email None None Ex.serialised Ex.relay_up (JObj Ex.mail_with_empty_plan)
  = (missing_parameters, [])
  /\ send_email None None Ex.serialised Ex.relay_up
       (JObj Ex.mail_with_empty_plan)
     = send_email None None Ex.serialised Ex.relay_up
         (JObj (delete "plan_text" Ex.mail_with_empty_plan)).
Proof.
  apply (send_email_empty None None Ex.serialised Ex.relay_up
           Ex.mail_with_empty_plan "plan_text").
  - right. left. reflexivity.
  - vm_compute. reflexivity.
Defined.

(* ================================================================== *)
(** * POST /submit-feedback: the plan excerpt *)
(* ================================================================== *)

Lemma take_length n s : (String.length (Str.take n s) <= n)%nat.
Proof.
  revert s. induction n as [|n IH]; intros [|c s]; simpl; try lia.
  specialize (IH s). lia.
Qed.

Lemma slice_len n v w :
  Op.slice_to n v = Return w -> exists k, Op.len w = Some k /\ (k <= n)%nat.
Proof.
  destruct v; simpl; try discriminate; intros [= <-]; simpl;
    eexists; split; try reflexivity.
  - apply take_length.
  - rewrite length_firstn. lia.
Qed.

(** C9.  Every document the handler stores has a plan excerpt of length
    at most 100; when the plan of the request is a string (or is absent),
    the document stored is the one whose excerpt is the first 100
    characters of the plan, and it is stored whenever the write succeeds. *)
Theorem plan_excerpt_at_most_100 add data :
  (forall entry,
      In entry (snd (submit_feedback add data)) ->
      exists n, Op.len (plan_excerpt entry) = Some n /\ (n <= 100)%nat)
  /\ (forall (m : gmap string json) s,
         data = JObj m ->
         default (JStr "") (m !! "plan_text") = JStr s ->
         let entry := {| exam_type := default JNull (m !! "exam_type");
                         rating := default JNull (m !! "rating");
                         comment := default JNull (m !! "comment");
                         plan_excerpt := JStr (Str.take 100 s) |} in
         (String.length (Str.take 100 s) <= 100)%nat
         /\ submit_feedback add data
            = match add entry with
              | Return _ => (feedback_stored, [entry])
              | Raise _ => (feedback_failed, [])
              end).
Proof.
  split.
  - intros entry. unfold submit_feedback.
    destruct (Py.get data "exam_type" JNull) as [a|]; [|intros []].
    cbn [mbind result_bind].
    destruct (Py.get data "rating" JNull) as [b|]; [|intros []].
    cbn [mbind result_bind].
    destruct (Py.get data "comment" JNull) as [c|]; [|intros []].
    cbn [mbind result_bind].
    destruct (Py.get data "plan_text" (JStr "")) as [v|]; [|intros []].
    cbn [mbind result_bind].
    destruct (Op.slice_to 100 v) as [w|] eqn:Hw; [|intros []].
    cbn [mbind result_bind].
    destruct (add _); [|intros []].
    simpl. intros [<-|[]]. simpl. now apply slice_len with v.
  - intros m s -> Hs entry. split; [apply take_length|].
    unfold submit_feedback. rewrite !get_obj. cbn [mbind result_bind].
    rewrite Hs. cbn [mbind result_bind Op.slice_to]. fold entry.
    destruct (add entry); reflexivity.
Qed.

Lemma plan_excerpt_at_most_100_witness :
  snd (submit_feedback Ex.store_up (JObj Ex.long_feedback))
  = [ {| exam_type := JStr "GRE"; rating := JInt 5; comment := JNull;
         plan_excerpt := JStr (Ex.stars 100) |} ]
  /\ exists n,
       Op.len (JStr (Ex.stars 100)) = Some n /\ (n <= 100)%nat.
Proof.
  destruct (plan_excerpt_at_most_100 Ex.store_up (JObj Ex.long_feedback))
    as [H1 H2].
  destruct (H2 Ex.long_feedback (Ex.stars 150) eq_refl) as [_ H3].
  - vm_compute. reflexivity.
  - split.
    + rewrite H3. vm_compute. reflexivity.
    + apply (H1 {| exam_type := JStr "GRE"; rating := JInt 5; comment := JNull;
                   plan_excerpt := JStr (Ex.stars 100) |}).
      rewrite H3. vm_compute. left. reflexivity.
Defined.

(* ================================================================== *)
(** * The goal is searched as a pattern *)
(* ================================================================== *)

(** C2.  The Strict tier does not look for the goal as a substring: the
    goal "A.I" selects the row "Medical Imaging", which does not contain
    it, and the goal "?" makes the analysis fail on a row that contains
    it; both whatever the patterns outside the modelled families do. *)
Theorem strict_tier_searches_a_pattern :
  forall re_other,
    let p := {| gpa := Float.of_decimal false 35 (-1); goal := "a.i";
                budget := 3000; style := "visual" |} in
    let q := {| gpa := Float.of_decimal false 35 (-1); goal := "?";
                budget := 3000; style := "visual" |} in
    (read_profile Ex.ai = Return p
     /\ strict_spec p Ex.imaging = false
     /\ run_tier re_other (Frame [Ex.imaging]) p Strict = Return [Ex.imaging]
     /\ analyze_profile re_other (Frame [Ex.imaging]) Ex.ai
        = match_result [Ex.imaging] 35)
    /\ (read_profile Ex.unsure = Return q
        /\ strict_spec q Ex.undecided = true
        /\ run_tier re_other (Frame [Ex.undecided]) q Strict = Raise ReError
        /\ analyze_profile re_other (Frame [Ex.undecided]) Ex.unsure
           = analysis_failed).
Proof. intros re_other. repeat split; vm_compute; reflexivity. Qed.

(* ================================================================== *)
(** * Further properties of [analyze_profile] *)
(* ================================================================== *)

Lemma filter_nil_iff {A} (f : A -> bool) (l : list A) :
  List.filter f l = [] <-> List.Forall (fun x => f x = false) l.
Proof.
  induction l as [|x l IH]; simpl.
  - split; [constructor | reflexivity].
  - destruct (f x) eqn:E.
    + split; [discriminate | intros H; inversion H; congruence].
    + rewrite IH. split; [now constructor | intros H; now inversion H].
Qed.

Lemma accepts_goal_and_gpa found p t r :
  accepts found p t r = true -> goal_and_gpa found p r = true.
Proof.
  unfold accepts, goal_and_gpa. intros H.
  apply andb_true_iff in H as [H _]. now apply andb_true_iff in H as [H _].
Qed.

Lemma accepts_last found p r :
  accepts found p DropStyleRelaxBudget r = goal_and_gpa found p r.
Proof. unfold accepts, goal_and_gpa. simpl. now rewrite !andb_true_r. Qed.

Lemma read_profile_obj (m : gmap string json) :
  read_profile (JObj m)
  = (_ ← Py.as_str (default (JStr "") (m !! "personality"));
     gpa ← Py.float (default (JInt 0) (m !! "gpa"));
     goal ← Py.as_str (default (JStr "") (m !! "career_goal"));
     budget ← Py.int (default (JInt 0) (m !! "budget"));
     style ← Py.as_str (default (JStr "") (m !! "learning_style"));
     mret {| gpa := gpa;
             goal := Str.strip (Str.lower goal);
             budget := budget;
             style := Str.strip (Str.lower style) |}).
Proof. unfold read_profile. rewrite !get_obj. reflexivity. Qed.

Lemma status_cases re_other df data :
  analyze_profile re_other df data = analysis_failed
  \/ analyze_profile re_other df data = not_found
  \/ exists p t matched s,
       read_profile data = Return p
       /\ run_tier re_other df p t = Return matched /\ matched <> []
       /\ analyze_profile re_other df data
          = match_result (firstn 3 matched) s.
Proof.
  destruct (read_profile data) as [p|e] eqn:Hp;
    [|left; now apply analyze_profile_unread with e].
  rewrite (analyze_profile_read _ _ _ _ Hp).
  destruct (match_profile_cases re_other df p)
    as [H|[(t & matched & Ht & Hne & Hb)|(t & e & Ht & Hb)]].
  - right. left. now rewrite (match_profile_none _ _ _ H).
  - rewrite (match_profile_first _ _ _ _ _ Ht Hne Hb).
    destruct (match_score (gpa p)) as [s|e]; [|left; reflexivity].
    right. right. exists p, t, matched, s. auto.
  - left. now rewrite (match_profile_raise _ _ _ _ _ Ht Hb).
Qed.

(** X1.  When the catalog cannot be read at start-up, every request is
    answered with the 500 "Profile analysis failed", whatever it holds:
    never with a match, never with the 404. *)
Theorem analyze_profile_unloaded re_other e data :
  analyze_profile re_other (load_catalog (Raise e)) data = analysis_failed.
Proof.
  simpl. destruct (read_profile data) as [p|e'] eqn:Hp.
  - rewrite (analyze_profile_read _ _ _ _ Hp). reflexivity.
  - now apply analyze_profile_unread with e'.
Qed.

(** The answer is the 404 exactly when no row passes the two tests that
    every tier makes. *)
Lemma not_found_goal_and_gpa re_other rows data p found :
  read_profile data = Return p ->
  Re.compile re_other (goal p) = Return found ->
  analyze_profile re_other (Frame rows) data = not_found
  <-> List.Forall (fun r => goal_and_gpa found p r = false) rows.
Proof.
  intros Hp Hc. rewrite <- filter_nil_iff. split.
  - intros H.
    destruct (List.filter (goal_and_gpa found p) rows) as [|r l] eqn:E;
      [reflexivity|exfalso].
    assert (Hlast : run_tier re_other (Frame rows) p DropStyleRelaxBudget
                    = Return (r :: l)).
    { rewrite (run_tier_frame _ _ _ _ _ Hc), <- E. f_equal.
      apply filter_ext. intros x. apply accepts_last. }
    rewrite (analyze_profile_read _ _ _ _ Hp) in H.
    destruct (match_profile_cases re_other (Frame rows) p)
      as [H0|[(t & matched & Ht & Hne & Hb)|(t & e & Ht & Hb)]].
    + rewrite H0 in Hlast. discriminate.
    + rewrite (match_profile_first _ _ _ _ _ Ht Hne Hb) in H.
      destruct (match_score (gpa p)); apply (f_equal status) in H;
        discriminate.
    + rewrite (match_profile_raise _ _ _ _ _ Ht Hb) in H.
      apply (f_equal status) in H. discriminate.
  - intros H. rewrite (analyze_profile_read _ _ _ _ Hp).
    rewrite match_profile_none; [reflexivity|].
    intros t. rewrite (run_tier_frame _ _ _ _ _ Hc). f_equal.
    apply filter_nil_iff. apply filter_nil_iff in H.
    apply List.Forall_forall. intros r Hr.
    destruct (accepts found p t r) eqn:E; [|reflexivity].
    apply accepts_goal_and_gpa in E.
    rewrite (proj1 (List.Forall_forall _ _) H r Hr) in E. discriminate.
Qed.

(** X2.  On a loaded catalog, for a request that is read and a goal the
    search accepts, the answer is the 404 exactly when no row has both the
    goal in its career goal and a threshold at most the GPA: the budget
    and the learning style of the request never turn a match into a 404. *)
Theorem not_found_iff re_other rows data p found :
  read_profile data = Return p ->
  Re.compile re_other (goal p) = Return found ->
  analyze_profile re_other (Frame rows) data = not_found
  <-> List.Forall (fun r => goal_and_gpa found p r = false) rows.
Proof. apply not_found_goal_and_gpa. Qed.

Lemma not_found_iff_witness :
  analyze_profile no_other (Frame [Ex2.phd]) Ex.intj = not_found
  <-> List.Forall
        (fun r => goal_and_gpa (Re.search (literal "data")) Ex.intj_profile r
                  = false)
        [Ex2.phd].
Proof.
  apply (not_found_iff no_other [Ex2.phd] Ex.intj Ex.intj_profile).
  - vm_compute. reflexivity.
  - reflexivity.
Defined.

(** X3.  The rows a tier returns are among the rows every tier tried
    after it returns: relaxing never loses a row. *)
Theorem tiers_nested re_other df p t' t matched' matched :
  before t' t ->
  run_tier re_other df p t' = Return matched' ->
  run_tier re_other df p t = Return matched ->
  forall r, In r matched' -> In r matched.
Proof.
  intros Hb H' H r Hr.
  destruct (run_tier_inv _ _ _ _ _ H') as (rows & found & -> & Hc & ->).
  rewrite (run_tier_frame _ _ _ _ _ Hc) in H. injection H as <-.
  apply filter_In in Hr as [Hin Hacc]. apply filter_In. split; [assumption|].
  apply accepts_relaxed with t'; [unfold before in Hb; lia | assumption].
Qed.

Lemma tiers_nested_witness :
  In Ex.msds
     (List.filter
        (accepts (Re.search (literal "data")) Ex.intj_profile DropStyle)
        [Ex.msds; Ex2.phd]).
Proof.
  apply (tiers_nested no_other (Frame [Ex.msds; Ex2.phd]) Ex.intj_profile
           Strict DropStyle [Ex.msds]).
  - unfold before. simpl. lia.
  - vm_compute. reflexivity.
  - apply run_tier_frame. reflexivity.
  - left. reflexivity.
Defined.

(** X4.  The status of the answer is 200, 404 or 500, never 400; and an
    answer with status 200 carries three lists of one length, between 1
    and 3, and an integer score. *)
Theorem analyze_profile_shape re_other df data :
  let answer := analyze_profile re_other df data in
  (status answer = 200 \/ status answer = 404 \/ status answer = 500)
  /\ (status answer = 200 ->
      exists courses universities countries score,
        body answer
        = jsonify [("recommended_courses", tolist courses);
                   ("top_universities", tolist universities);
                   ("recommended_countries", tolist countries);
                   ("match_score", JInt score)]
        /\ length universities = length courses
        /\ length countries = length courses
        /\ (1 <= length courses <= 3)%nat).
Proof.
  intros answer. subst answer.
  destruct (status_cases re_other df data)
    as [->|[->|(p & t & matched & s & _ & _ & Hne & ->)]].
  - split; [auto | discriminate].
  - split; [auto | discriminate].
  - split; [auto|]. intros _.
    exists (map recommended_course (firstn 3 matched)),
           (map university (firstn 3 matched)),
           (map country (firstn 3 matched)), s.
    split; [reflexivity|]. rewrite !length_map. repeat split.
    + destruct matched; [congruence | simpl; lia].
    + rewrite length_firstn. lia.
Qed.

(** X5.  The [personality] of the request has no part in the answer: a
    request gets the answer of the same request without the field,
    whatever string the field holds. *)
Theorem personality_unused re_other df (m : gmap string json) s :
  analyze_profile re_other df (JObj (<["personality" := JStr s]> m))
  = analyze_profile re_other df (JObj (delete "personality" m)).
Proof.
  unfold analyze_profile. rewrite !read_profile_obj.
  rewrite lookup_insert_eq, lookup_delete_eq.
  rewrite !lookup_insert_ne, !lookup_delete_ne by discriminate.
  reflexivity.
Qed.

Lemma as_str_not_str v : is_str v = false -> raises (Py.as_str v).
Proof. destruct v; simpl; try discriminate; intros _; eexists; reflexivity. Qed.

Lemma raises_bind_l {A B} (m : result A) (k : A -> result B) :
  raises m -> raises (m ≫= k).
Proof. intros [e ->]. exists e. reflexivity. Qed.

Lemma raises_bind_r {A B} (m : result A) (k : A -> result B) :
  (forall a, raises (k a)) -> raises (m ≫= k).
Proof. intros H. destruct m as [a|e]; [apply H | exists e; reflexivity]. Qed.

(** X6.  A text field that is present without being a string (a
    [null], a number, a list) is not replaced by the default: the request
    fails with the 500 "Profile analysis failed". *)
Theorem text_field_not_str re_other df (m : gmap string json) k v :
  text_field k ->
  m !! k = Some v ->
  is_str v = false ->
  analyze_profile re_other df (JObj m) = analysis_failed.
Proof.
  intros Hk Hm Hv. pose proof (as_str_not_str v Hv) as He.
  assert (H : raises (read_profile (JObj m))).
  { rewrite read_profile_obj.
    destruct Hk as [->|[->| ->]]; rewrite Hm; simpl default.
    - now apply raises_bind_l.
    - do 2 (apply raises_bind_r; intros ?). now apply raises_bind_l.
    - do 4 (apply raises_bind_r; intros ?). now apply raises_bind_l. }
  destruct H as [e' H]. now apply analyze_profile_unread with e'.
Qed.

Lemma text_field_not_str_witness :
  analyze_profile no_other (Frame [Ex.msds]) (JObj Ex2.null_goal)
  = analysis_failed.
Proof.
  apply (text_field_not_str no_other (Frame [Ex.msds]) Ex2.null_goal
           "career_goal" JNull).
  - right. left. reflexivity.
  - vm_compute. reflexivity.
  - reflexivity.
Defined.

(* ================================================================== *)
(** * Case and blanks in the text that is matched *)
(* ================================================================== *)

Lemma lower_char_idem c : Str.lower_char (Str.lower_char c) = Str.lower_char c.
Proof. destruct c as [[] [] [] [] [] [] [] []]; reflexivity. Qed.

Lemma isspace_lower_char c : Str.isspace (Str.lower_char c) = Str.isspace c.
Proof. destruct c as [[] [] [] [] [] [] [] []]; reflexivity. Qed.

Lemma lower_idem s : Str.lower (Str.lower s) = Str.lower s.
Proof.
  induction s as [|c s IH]; simpl; [reflexivity|].
  now rewrite lower_char_idem, IH.
Qed.

Lemma lower_lstrip s : Str.lower (Str.lstrip s) = Str.lstrip (Str.lower s).
Proof.
  induction s as [|c s IH]; simpl; [reflexivity|].
  rewrite isspace_lower_char. destruct (Str.isspace c); [exact IH|reflexivity].
Qed.

Lemma lower_rev_onto s acc :
  Str.lower (Str.rev_onto s acc) = Str.rev_onto (Str.lower s) (Str.lower acc).
Proof.
  revert acc. induction s as [|c s IH]; intros acc; simpl; [reflexivity|].
  now rewrite IH.
Qed.

Lemma lower_rev s : Str.lower (Str.rev s) = Str.rev (Str.lower s).
Proof. apply lower_rev_onto. Qed.

(** Lower-casing and stripping can be done in either order. *)
Lemma lower_strip s : Str.lower (Str.strip s) = Str.strip (Str.lower s).
Proof.
  unfold Str.strip, Str.rstrip.
  now rewrite lower_rev, lower_lstrip, lower_rev, lower_lstrip.
Qed.

Lemma append_cons c (a b : string) :
  (String c a ++ b = String c (a ++ b))%string.
Proof. reflexivity. Qed.

Lemma append_assoc (a b c : string) :
  ((a ++ b) ++ c = a ++ (b ++ c))%string.
Proof.
  induction a as [|x a IH]; [reflexivity|].
  now rewrite !append_cons, IH.
Qed.

Lemma rev_onto_append s acc :
  Str.rev_onto s acc = (Str.rev s ++ acc)%string.
Proof.
  unfold Str.rev. revert acc.
  induction s as [|c s IH]; intros acc; simpl; [reflexivity|].
  rewrite (IH (String c acc)), (IH (String c EmptyString)), append_assoc.
  reflexivity.
Qed.

Lemma rev_cons c s :
  Str.rev (String c s) = (Str.rev s ++ String c EmptyString)%string.
Proof. unfold Str.rev at 1. simpl. apply rev_onto_append. Qed.

Lemma rev_snoc s c :
  Str.rev (s ++ String c EmptyString) = String c (Str.rev s).
Proof.
  induction s as [|d s IH]; [reflexivity|].
  rewrite append_cons. now rewrite !rev_cons, IH.
Qed.

Lemma rev_empty s : Str.rev s = EmptyString -> s = EmptyString.
Proof.
  destruct s as [|c s]; [reflexivity|]. rewrite rev_cons.
  destruct (Str.rev s); discriminate.
Qed.

Lemma lstrip_append x z :
  Str.lstrip (x ++ z)
  = match Str.lstrip x with
    | EmptyString => Str.lstrip z
    | String c y => (String c y ++ z)%string
    end.
Proof.
  induction x as [|c x IH]; [reflexivity|].
  rewrite append_cons. simpl Str.lstrip.
  destruct (Str.isspace c); [exact IH | reflexivity].
Qed.

(** [rstrip] drops the blanks at the right end, and nothing else. *)
Lemma rstrip_structural s : Str.rstrip s = rstrip_rec s.
Proof.
  unfold Str.rstrip. induction s as [|c s IH]; [reflexivity|].
  rewrite rev_cons, lstrip_append. simpl rstrip_rec. rewrite <- IH.
  destruct (Str.lstrip (Str.rev s)) as [|d y] eqn:E.
  - simpl. destruct (Str.isspace c); reflexivity.
  - rewrite rev_snoc.
    destruct (Str.rev (String d y)) eqn:E'; [|reflexivity].
    apply rev_empty in E'. discriminate.
Qed.

Lemma lstrip_clean s : clean_head (Str.lstrip s) = true.
Proof.
  induction s as [|c s IH]; simpl; [reflexivity|].
  destruct (Str.isspace c) eqn:E; [exact IH|]. simpl. now rewrite E.
Qed.

Lemma clean_lstrip s : clean_head s = true -> Str.lstrip s = s.
Proof.
  destruct s as [|c s]; simpl; [reflexivity|].
  intros H. apply negb_true_iff in H. now rewrite H.
Qed.

Lemma rstrip_rec_clean s :
  clean_head s = true -> clean_head (rstrip_rec s) = true.
Proof.
  destruct s as [|c s]; simpl; [reflexivity|]. intros H.
  apply negb_true_iff in H. rewrite H.
  destruct (rstrip_rec s); simpl; now rewrite H.
Qed.

Lemma rstrip_rec_idem s : rstrip_rec (rstrip_rec s) = rstrip_rec s.
Proof.
  induction s as [|c s IH]; simpl; [reflexivity|].
  destruct (rstrip_rec s) as [|d r] eqn:E.
  - destruct (Str.isspace c) eqn:Ec; simpl; [reflexivity | now rewrite Ec].
  - simpl rstrip_rec at 1. simpl in IH. destruct (rstrip_rec r) as [|d' r'].
    + destruct (Str.isspace d); [discriminate|]. injection IH as <-.
      reflexivity.
    + injection IH as <-. reflexivity.
Qed.

(** A stripped string has no blank at either end: stripping it again
    changes nothing. *)
Lemma strip_idem s : Str.strip (Str.strip s) = Str.strip s.
Proof.
  unfold Str.strip. rewrite !rstrip_structural.
  rewrite (clean_lstrip (rstrip_rec (Str.lstrip s))).
  - apply rstrip_rec_idem.
  - apply rstrip_rec_clean, lstrip_clean.
Qed.

Lemma normal_idem s : normal (normal s) = normal s.
Proof.
  unfold normal. now rewrite lower_strip, lower_idem, strip_idem.
Qed.

(** X7.  The goal and the learning style of the request are matched
    without their case and without the blanks around them: the request
    gets the answer of the request that holds them lower-cased and
    stripped. *)
Theorem request_text_normalised re_other df (m : gmap string json) g st :
  analyze_profile re_other df
    (JObj (<["career_goal" := JStr g]> (<["learning_style" := JStr st]> m)))
  = analyze_profile re_other df
      (JObj (<["career_goal" := JStr (normal g)]>
               (<["learning_style" := JStr (normal st)]> m))).
Proof.
  unfold analyze_profile. rewrite !read_profile_obj.
  rewrite !lookup_insert_eq.
  rewrite !(lookup_insert_ne _ "career_goal") by discriminate.
  rewrite !lookup_insert_eq.
  rewrite !(lookup_insert_ne _ "learning_style") by discriminate.
  destruct (Py.as_str (default (JStr "") (m !! "personality")));
    [|reflexivity].
  destruct (Py.float (default (JInt 0) (m !! "gpa"))); [|reflexivity].
  destruct (Py.int (default (JInt 0) (m !! "budget"))); [|reflexivity].
  cbn [default from_option id Py.as_str mbind result_bind mret result_ret].
  change (Str.strip (Str.lower (normal g))) with (normal (normal g)).
  change (Str.strip (Str.lower (normal st))) with (normal (normal st)).
  rewrite !normal_idem. reflexivity.
Qed.

Lemma accepts_lower_row found p t r :
  accepts found p t (lower_row r) = accepts found p t r.
Proof. unfold accepts, lower_row. simpl. now rewrite !lower_idem. Qed.

Lemma filter_map_swap {A B} (f : B -> bool) (g : A -> B) (l : list A) :
  List.filter f (map g l) = map g (List.filter (fun x => f (g x)) l).
Proof.
  induction l as [|x l IH]; simpl; [reflexivity|].
  destruct (f (g x)); simpl; now rewrite IH.
Qed.

Lemma run_tier_lower_rows re_other rows p t :
  run_tier re_other (Frame (map lower_row rows)) p t
  = match run_tier re_other (Frame rows) p t with
    | Return matched => Return (map lower_row matched)
    | Raise e => Raise e
    end.
Proof.
  destruct (Re.compile re_other (goal p)) as [found|e] eqn:Hc.
  - rewrite !(run_tier_frame _ _ _ _ _ Hc), filter_map_swap. do 2 f_equal.
    apply filter_ext. intros r. apply accepts_lower_row.
  - unfold run_tier. now rewrite !(run_filter_bad_pattern _ _ _ _ _ _ _ Hc).
Qed.

Lemma match_result_lower_rows matched s :
  match_result (firstn 3 (map lower_row matched)) s
  = match_result (firstn 3 matched) s.
Proof.
  unfold match_result. rewrite firstn_map, !map_map. reflexivity.
Qed.

(** X8.  The case of the catalog's career goals and learning styles is
    not seen either: the catalog with these two columns in lower case
    gives every request the same answer. *)
Theorem catalog_case_unseen re_other rows data :
  analyze_profile re_other (Frame (map lower_row rows)) data
  = analyze_profile re_other (Frame rows) data.
Proof.
  destruct (read_profile data) as [p|e] eqn:Hp;
    [|now rewrite !(analyze_profile_unread _ _ _ _ Hp)].
  rewrite !(analyze_profile_read _ _ _ _ Hp).
  destruct (match_profile_cases re_other (Frame rows) p)
    as [H|[(t & matched & Ht & Hne & Hb)|(t & e & Ht & Hb)]].
  - rewrite (match_profile_none _ _ _ H), match_profile_none; [reflexivity|].
    intros t. now rewrite run_tier_lower_rows, H.
  - rewrite (match_profile_first _ _ _ _ _ Ht Hne Hb).
    rewrite (match_profile_first _ _ _ t (map lower_row matched)).
    + destruct (match_score (gpa p)); [|reflexivity].
      cbn [mbind result_bind mret result_ret].
      now rewrite match_result_lower_rows.
    + now rewrite run_tier_lower_rows, Ht.
    + destruct matched; [congruence|discriminate].
    + intros t' Ht'. now rewrite run_tier_lower_rows, (Hb t' Ht').
  - rewrite (match_profile_raise _ _ _ _ _ Ht Hb).
    rewrite (match_profile_raise _ _ _ t e); [reflexivity| |].
    + now rewrite run_tier_lower_rows, Ht.
    + intros t' Ht'. now rewrite run_tier_lower_rows, (Hb t' Ht').
Qed.

(* ================================================================== *)
(** * Rows and requests that cannot match *)
(* ================================================================== *)

Lemma leb_nan x : Float.leb x S754_nan = false.
Proof. destruct x; reflexivity. Qed.

Lemma failed_is_not_not_found : analysis_failed <> not_found.
Proof. intros H. apply (f_equal status) in H. discriminate. Qed.

(** X9.  A request whose [gpa] is read as not-a-number (the string
    "nan", the JSON constant [NaN]) never gets a match, whatever the rows
    of a loaded catalog are: NaN is below every threshold.  The answer is
    the 404 exactly when the request is read and its goal is a pattern
    the search accepts, and the 500 "Profile analysis failed" otherwise. *)
Theorem nan_gpa_not_found re_other rows data v :
  field "gpa" data = Some v ->
  Py.float v = Return S754_nan ->
  (analyze_profile re_other (Frame rows) data = not_found
   \/ analyze_profile re_other (Frame rows) data = analysis_failed)
  /\ (analyze_profile re_other (Frame rows) data = not_found
      <-> exists p found,
            read_profile data = Return p
            /\ Re.compile re_other (goal p) = Return found).
Proof.
  intros Hv Hnan. destruct data as [| | | | | |m]; try discriminate.
  simpl in Hv.
  destruct (read_profile (JObj m)) as [p|e] eqn:Hp.
  2: { rewrite (analyze_profile_unread _ _ _ _ Hp). split; [now right|].
       split; [intros H; now apply failed_is_not_not_found in H|].
       intros (p & found & H & _). discriminate. }
  assert (Hg : gpa p = S754_nan).
  { pose proof (read_profile_gpa _ _ Hp) as H. rewrite get_obj, Hv in H.
    simpl in H. congruence. }
  destruct (Re.compile re_other (goal p)) as [found|e] eqn:Hc.
  - assert (H : analyze_profile re_other (Frame rows) (JObj m) = not_found).
    { apply (not_found_goal_and_gpa _ _ _ _ _ Hp Hc).
      apply List.Forall_forall. intros r _. unfold goal_and_gpa.
      now rewrite Hg, leb_nan, andb_false_r. }
    split; [now left|]. split; [|intros _; exact H].
    intros _. now exists p, found.
  - rewrite (analyze_profile_bad_pattern _ _ _ _ _ Hp Hc).
    split; [now right|].
    split; [intros H; now apply failed_is_not_not_found in H|].
    intros (p' & found & [= <-] & H). congruence.
Qed.

Lemma nan_gpa_not_found_witness :
  (analyze_profile no_other (Frame [Ex.msds; Ex.open_row]) Ex2.nan_request
   = not_found
   \/ analyze_profile no_other (Frame [Ex.msds; Ex.open_row]) Ex2.nan_request
      = analysis_failed)
  /\ (analyze_profile no_other (Frame [Ex.msds; Ex.open_row]) Ex2.nan_request
      = not_found
      <-> exists p found,
            read_profile Ex2.nan_request = Return p
            /\ Re.compile no_other (goal p) = Return found).
Proof.
  apply (nan_gpa_not_found no_other [Ex.msds; Ex.open_row] Ex2.nan_request
           (JStr "nan")).
  - vm_compute. reflexivity.
  - vm_compute. reflexivity.
Defined.

Lemma run_tier_out_of_reach re_other rows1 extra rows2 p t :
  List.Forall (fun r => Float.leb (personality_min_gpa r) (gpa p) = false)
    extra ->
  run_tier re_other (Frame (rows1 ++ extra ++ rows2)) p t
  = run_tier re_other (Frame (rows1 ++ rows2)) p t.
Proof.
  intros H. destruct (Re.compile re_other (goal p)) as [found|e] eqn:Hc.
  - rewrite !(run_tier_frame _ _ _ _ _ Hc), !List.filter_app.
    replace (List.filter (accepts found p t) extra) with (@nil CourseRow);
      [reflexivity|].
    symmetry. apply filter_nil_iff, List.Forall_forall. intros r Hr.
    destruct (accepts found p t r) eqn:E; [|reflexivity].
    apply accepts_goal_and_gpa in E. unfold goal_and_gpa in E.
    rewrite (proj1 (List.Forall_forall _ _) H r Hr), andb_false_r in E.
    discriminate.
  - unfold run_tier. now rewrite !(run_filter_bad_pattern _ _ _ _ _ _ _ Hc).
Qed.

(** X10.  Rows whose threshold is above the GPA of the request have no
    part in its answer: with or without them in the catalog, wherever
    they stand, the answer is the same. *)
Theorem out_of_reach_rows re_other rows1 extra rows2 data p :
  read_profile data = Return p ->
  List.Forall (fun r => Float.leb (personality_min_gpa r) (gpa p) = false)
    extra ->
  analyze_profile re_other (Frame (rows1 ++ extra ++ rows2)) data
  = analyze_profile re_other (Frame (rows1 ++ rows2)) data.
Proof.
  intros Hp H. rewrite !(analyze_profile_read _ _ _ _ Hp).
  unfold match_profile.
  change (run_filter re_other ?d p true false false)
    with (run_tier re_other d p Strict).
  change (run_filter re_other ?d p true true false)
    with (run_tier re_other d p DropStyle).
  change (run_filter re_other ?d p true true true)
    with (run_tier re_other d p DropStyleRelaxBudget).
  now rewrite !(run_tier_out_of_reach _ _ _ _ _ _ H).
Qed.

Lemma out_of_reach_rows_witness :
  analyze_profile no_other (Frame ([] ++ [Ex2.phd] ++ [Ex.msds])) Ex.intj
  = analyze_profile no_other (Frame ([] ++ [Ex.msds])) Ex.intj.
Proof.
  apply (out_of_reach_rows no_other [] [Ex2.phd] [Ex.msds] Ex.intj
           Ex.intj_profile).
  - vm_compute. reflexivity.
  - repeat constructor.
Defined.

Lemma read_profile_goal (m : gmap string json) p :
  read_profile (JObj m) = Return p ->
  exists g,
    Py.as_str (default (JStr "") (m !! "career_goal")) = Return g
    /\ goal p = normal g.
Proof.
  rewrite read_profile_obj.
  destruct (Py.as_str (default (JStr "") (m !! "personality")));
    [|discriminate].
  destruct (Py.float (default (JInt 0) (m !! "gpa"))); [|discriminate].
  destruct (Py.as_str (default (JStr "") (m !! "career_goal"))) as [g|];
    [|discriminate].
  destruct (Py.int (default (JInt 0) (m !! "budget"))); [|discriminate].
  destruct (Py.as_str (default (JStr "") (m !! "learning_style")));
    [|discriminate].
  cbn [mbind result_bind mret result_ret]. intros [= <-].
  exists g. split; reflexivity.
Qed.

(** X11.  On a loaded catalog, a request whose body is a JSON object
    without [career_goal], or with a blank one, is matched on the GPA
    alone, whatever the regular expressions outside the modelled families
    are: the answer is the 404 exactly when the request is read (a
    numeric [gpa] and [budget], strings for the text fields) and every
    threshold of the catalog is above its GPA. *)
Theorem blank_goal_matches_all re_other rows (m : gmap string json) :
  m !! "career_goal" = None
  \/ (exists g, m !! "career_goal" = Some (JStr g) /\ normal g = "") ->
  analyze_profile re_other (Frame rows) (JObj m) = not_found
  <-> exists p,
        read_profile (JObj m) = Return p
        /\ List.Forall
             (fun r => Float.leb (personality_min_gpa r) (gpa p) = false)
             rows.
Proof.
  intros Hm.
  destruct (read_profile (JObj m)) as [p|e] eqn:Hp.
  2: { rewrite (analyze_profile_unread _ _ _ _ Hp).
       split; [intros H; now apply failed_is_not_not_found in H|].
       intros (p & H & _). discriminate. }
  enough (analyze_profile re_other (Frame rows) (JObj m) = not_found
          <-> List.Forall
                (fun r => Float.leb (personality_min_gpa r) (gpa p) = false)
                rows) as Hiff.
  { rewrite Hiff. split; [intros H; now exists p|].
    now intros (p' & [= <-] & H). }
  destruct (read_profile_goal _ _ Hp) as (g & Hg & Hgoal).
  assert (Hblank : goal p = "").
  { rewrite Hgoal. destruct Hm as [Hm|(g' & Hm & Hn)]; rewrite Hm in Hg;
      simpl in Hg; injection Hg as <-; [reflexivity | exact Hn]. }
  assert (Hc : Re.compile re_other (goal p) = Return (Re.search [])).
  { rewrite Hblank. reflexivity. }
  rewrite (not_found_goal_and_gpa _ _ _ _ _ Hp Hc).
  assert (Hall : forall s, Re.search [] s = true) by (intros []; reflexivity).
  unfold goal_and_gpa. split; intros H; apply List.Forall_forall;
    intros r Hr; pose proof (proj1 (List.Forall_forall _ _) H r Hr) as Hrow;
    simpl in Hrow; rewrite Hall in *; exact Hrow.
Qed.

Lemma blank_goal_matches_all_witness :
  analyze_profile no_other (Frame [Ex.msds]) (JObj Ex2.gpa_only) = not_found
  <-> exists p,
        read_profile (JObj Ex2.gpa_only) = Return p
        /\ List.Forall
             (fun r => Float.leb (personality_min_gpa r) (gpa p) = false)
             [Ex.msds].
Proof.
  apply (blank_goal_matches_all no_other [Ex.msds] Ex2.gpa_only).
  left. reflexivity.
Defined.

(* ================================================================== *)
(** * Further properties of [generate_plan] *)
(* ================================================================== *)


Lemma or_truthy a b : Py.truthy b = true -> Py.truthy (Op.or_ a b) = true.
Proof. unfold Op.or_. intros H. destruct (Py.truthy a) eqn:E; assumption. Qed.

(** X12.  The request of a plan is read from any JSON object.  An
    absent [exam_type], [target_score] or [weeks] is read as "GRE", "300"
    or "6", and a present one is kept as it is, falsy or not.  The weak
    areas handed to the text service are never falsy: an absent or falsy
    [weak_areas] is replaced by "general preparation", and a truthy one is
    kept. *)
Theorem weak_areas_never_blank (m : gmap string json) :
  exists request,
    read_plan_request (JObj m) = Return request
    /\ exam request = default (JStr "GRE") (m !! "exam_type")
    /\ score request = default (JStr "300") (m !! "target_score")
    /\ weeks request = default (JStr "6") (m !! "weeks")
    /\ Py.truthy (weak_areas request) = true
    /\ (Py.truthy (default (JStr "") (m !! "weak_areas")) = false ->
        weak_areas request = JStr "general preparation")
    /\ (Py.truthy (default (JStr "") (m !! "weak_areas")) = true ->
        m !! "weak_areas" = Some (weak_areas request)).
Proof.
  unfold read_plan_request. rewrite !get_obj. eexists. split; [reflexivity|].
  simpl. repeat split.
  - now apply or_truthy.
  - unfold Op.or_. now intros ->.
  - unfold Op.or_. intros H. rewrite H.
    destruct (m !! "weak_areas"); [reflexivity|discriminate].
Qed.

Section PlanFacts.

Variable post : plan_request -> result http_response.
Variable exn_str : exn -> string.

(** X13.  When the text service answers with a status other than 200,
    the answer is the 500 "Gemini API failed" with the text of its
    response; the body of the response is not read as JSON. *)
Theorem generate_plan_upstream_error data request response :
  read_plan_request data = Return request ->
  post request = Return response ->
  status_code response <> 200 ->
  generate_plan post exn_str data = gemini_failed (text response).
Proof.
  intros Hr Hp Hs. unfold generate_plan.
  rewrite Hr. cbn [mbind result_bind]. rewrite Hp. cbn [mbind result_bind].
  apply Z.eqb_neq in Hs. rewrite Hs. reflexivity.
Qed.

(** X14.  The plan returned is the "text" of the first part of the first
    candidate, as it is (a string or not); the other parts and candidates
    are not read. *)
Theorem generate_plan_first_part data request response
    (m candidate content part : gmap string json) candidates parts v :
  read_plan_request data = Return request ->
  post request = Return response ->
  status_code response = 200 ->
  json_of response = Return (JObj m) ->
  m !! "candidates" = Some (JArr (JObj candidate :: candidates)) ->
  candidate !! "content" = Some (JObj content) ->
  content !! "parts" = Some (JArr (JObj part :: parts)) ->
  part !! "text" = Some v ->
  generate_plan post exn_str data = plan_response v.
Proof.
  intros Hr Hp Hs Hj Hm Hc Hparts Ht.
  rewrite (generate_plan_read _ _ _ _ _ _ Hr Hp Hs Hj).
  unfold read_plan. simpl Op.contains. simpl Op.getitem. rewrite Hm.
  rewrite bool_decide_eq_true_2 by eauto.
  cbn [mbind result_bind Py.truthy Op.first Op.getitem].
  rewrite Hc. cbn [mbind result_bind Op.getitem]. rewrite Hparts.
  cbn [mbind result_bind Py.truthy Op.first Op.contains Op.getitem].
  rewrite Ht. rewrite bool_decide_eq_true_2 by eauto. reflexivity.
Qed.


Lemma read_plan_cases gemini r :
  read_plan gemini = Return r ->
  (exists v, r = plan_response v) \/ r = no_insights gemini.
Proof.
  unfold read_plan.
  destruct (Op.contains "candidates" gemini) as [[]|];
    cbn [mbind result_bind]; [| intros [= <-]; right; reflexivity
                              | discriminate].
  destruct (Op.getitem gemini "candidates") as [c|]; [|discriminate].
  cbn [mbind result_bind].
  destruct (Py.truthy c); [|intros [= <-]; right; reflexivity].
  destruct (Op.first c); [|discriminate]. cbn [mbind result_bind].
  destruct (Op.getitem _ "content"); [|discriminate].
  cbn [mbind result_bind].
  destruct (Op.getitem _ "parts") as [parts|]; [|discriminate].
  cbn [mbind result_bind].
  destruct (if Py.truthy parts then _ else _) as [w|]; [|discriminate].
  cbn [mbind result_bind].
  destruct (if w then _ else _) as [v|]; [|discriminate].
  cbn [mbind result_bind mret result_ret]. intros [= <-]. left. eauto.
Qed.

(** X16.  Whatever the request and the text service, the answer has the
    status 200 or 500: it is a plan (status 200, with a "plan" and no
    "error"), or one of the three failures of the handler (status 500,
    with an "error" and no "plan"). *)
Theorem generate_plan_answers data :
  let answer := generate_plan post exn_str data in
  (status answer = 200
   /\ (exists v, field "plan" (body answer) = Some v)
   /\ field "error" (body answer) = None)
  \/ (status answer = 500
      /\ field "plan" (body answer) = None
      /\ exists msg, field "error" (body answer) = Some (JStr msg)).
Proof.
  intros answer. subst answer. unfold generate_plan.
  destruct (read_plan_request data) as [request|e];
    [|right; repeat split; eexists; reflexivity].
  cbn [mbind result_bind].
  destruct (post request) as [response|e];
    [|right; repeat split; eexists; reflexivity].
  cbn [mbind result_bind].
  destruct (negb (status_code response =? 200));
    [right; repeat split; eexists; reflexivity|].
  destruct (json_of response) as [gemini|e];
    [|right; repeat split; eexists; reflexivity].
  cbn [mbind result_bind].
  destruct (read_plan gemini) as [r|e] eqn:E;
    [|right; repeat split; eexists; reflexivity].
  destruct (read_plan_cases _ _ E) as [[v ->]| ->].
  - left. repeat split. eexists. reflexivity.
  - right. repeat split. eexists. reflexivity.
Qed.

End PlanFacts.

Lemma generate_plan_upstream_error_witness :
  generate_plan (fun _ => Return Ex2.throttled) Ex.no_message (JObj ∅)
  = gemini_failed "quota exceeded".
Proof.
  apply (generate_plan_upstream_error (fun _ => Return Ex2.throttled)
           Ex.no_message (JObj ∅) Ex.plan_request_defaults Ex2.throttled).
  - vm_compute. reflexivity.
  - reflexivity.
  - discriminate.
Defined.

Lemma generate_plan_first_part_witness :
  generate_plan (Ex.answers (JObj Ex2.two_parts)) Ex.no_message (JObj ∅)
  = plan_response (JStr "Week 1").
Proof.
  apply (generate_plan_first_part (Ex.answers (JObj Ex2.two_parts))
           Ex.no_message (JObj ∅) Ex.plan_request_defaults
           (Ex.ok_response (JObj Ex2.two_parts))
           Ex2.two_parts Ex2.first_candidate Ex2.first_content Ex2.first_part
           [] [jsonify [("text", JStr "Week 2")]] (JStr "Week 1"));
    vm_compute; reflexivity.
Defined.


(* ================================================================== *)
(** * POST /career-insights *)
(* ================================================================== *)

Section InsightsFacts.

Variable post_goal : string -> result http_response.

Lemma read_goal_obj (m : gmap string json) :
  read_goal (JObj m)
  = (goal ← Py.as_str (default (JStr "") (m !! "goal"));
     mret (Str.lower (Str.strip goal))).
Proof. unfold read_goal. rewrite get_obj. reflexivity. Qed.

Lemma lower_empty s : Str.lower s = "" <-> s = "".
Proof. destruct s; simpl; split; congruence. Qed.

Lemma read_insights_status gemini r :
  read_insights gemini = Return r -> status r <> 400.
Proof.
  unfold read_insights.
  destruct (Op.contains "candidates" gemini) as [[]|];
    cbn [mbind result_bind]; [| intros [= <-]; discriminate
                              | discriminate].
  destruct (Op.getitem gemini "candidates") as [c|]; [|discriminate].
  cbn [mbind result_bind].
  destruct (Op.first c); [|discriminate]. cbn [mbind result_bind].
  destruct (Op.getitem _ "content"); [|discriminate].
  cbn [mbind result_bind].
  destruct (Op.getitem _ "parts") as [parts|]; [|discriminate].
  cbn [mbind result_bind].
  destruct (Op.first parts); [|discriminate]. cbn [mbind result_bind].
  destruct (Op.getitem _ "text"); [|discriminate].
  cbn [mbind result_bind mret result_ret]. intros [= <-]. discriminate.
Qed.

(** X17.  The 400 "Career goal missing" is answered exactly when the
    body of the request is a JSON object without [goal], or whose
    [goal] is a string that is empty or made of blanks; no prompt is then
    posted to the text service.  A body that is not an object, or a
    [goal] that is not a string, is answered with the 500 "Failed to
    fetch insights", before any prompt is posted. *)
Theorem career_insights_blank data :
  (goal_blank data -> career_insights post_goal data = (goal_missing, []))
  /\ (status (fst (career_insights post_goal data)) = 400 ->
      goal_blank data)
  /\ (is_obj data = false
      \/ (exists v, field "goal" data = Some v /\ is_str v = false) ->
      career_insights post_goal data = (insights_failed, [])).
Proof.
  unfold goal_blank. split; [|split].
  3: { destruct data as [| | | | | |m]; try reflexivity.
       intros [H|(v & H & Hv)]; [discriminate|]. simpl in H.
       unfold career_insights. rewrite read_goal_obj, H.
       destruct v; try discriminate; reflexivity. }
  - intros [Hobj H]. destruct data as [| | | | | |m]; try discriminate.
    simpl in H. unfold career_insights. rewrite read_goal_obj.
    destruct H as [->|(g & -> & Hg)]; simpl default; simpl Py.as_str;
      cbn [mbind result_bind mret result_ret]; [reflexivity|].
    rewrite Hg. reflexivity.
  - destruct data as [| | | | | |m]; try discriminate.
    unfold career_insights. rewrite read_goal_obj. simpl field.
    destruct (m !! "goal") as [v|]; [|intros _; split; [reflexivity|now left]].
    simpl default.
    destruct v as [| | | |g| |]; try discriminate.
    simpl Py.as_str. cbn [mbind result_bind mret result_ret].
    destruct (Str.lower (Str.strip g)) as [|c s] eqn:Hg.
    + intros _. split; [reflexivity|]. right. exists g.
      split; [reflexivity|]. exact (proj1 (lower_empty _) Hg).
    + simpl negb. cbv iota. simpl fst.
      destruct (post_goal _) as [response|]; [|discriminate].
      cbn [mbind result_bind].
      destruct (json_of response) as [gemini|]; [|discriminate].
      cbn [mbind result_bind].
      destruct (read_insights gemini) as [r|] eqn:Hr; [|discriminate].
      intros H. now apply read_insights_status in Hr.
Qed.

(** X18.  The status code of the text service is not looked at: the
    answer to a request is the same whatever status the service gives
    with its response. *)
Theorem career_insights_ignores_status code data :
  career_insights
    (fun goal => response ← post_goal goal; mret (with_status code response))
    data
  = career_insights post_goal data.
Proof.
  unfold career_insights. destruct (read_goal data) as [goal|]; [|reflexivity].
  destruct (negb (Py.truthy (JStr goal))); [reflexivity|].
  destruct (post_goal goal); reflexivity.
Qed.

Lemma career_insights_posted data goal response gemini :
  read_goal data = Return goal ->
  goal <> "" ->
  post_goal goal = Return response ->
  json_of response = Return gemini ->
  career_insights post_goal data
  = (match read_insights gemini with
     | Return r => r
     | Raise _ => insights_failed
     end, [goal]).
Proof.
  intros Hg Hne Hp Hj. unfold career_insights. rewrite Hg.
  destruct goal as [|c goal]; [congruence|]. simpl negb. cbv iota.
  rewrite Hp. cbn [mbind result_bind]. rewrite Hj. reflexivity.
Qed.

(** X19.  When the text service answers with a JSON object: without a
    "candidates" entry the answer is the 500 "No insights found" carrying
    the object; with an empty list of candidates it is the 500 "Failed to
    fetch insights" without it (the first candidate is read without a
    test of the list). *)
Theorem career_insights_without_candidate data goal response
    (m : gmap string json) :
  read_goal data = Return goal ->
  goal <> "" ->
  post_goal goal = Return response ->
  json_of response = Return (JObj m) ->
  (m !! "candidates" = None ->
   career_insights post_goal data = (no_insights_found (JObj m), [goal]))
  /\ (m !! "candidates" = Some (JArr []) ->
      career_insights post_goal data = (insights_failed, [goal])).
Proof.
  intros Hg Hne Hp Hj.
  rewrite (career_insights_posted _ _ _ _ Hg Hne Hp Hj).
  unfold read_insights. simpl Op.contains. simpl Op.getitem.
  split; intros ->.
  - rewrite bool_decide_eq_false_2 by (intros [x Hx]; discriminate).
    reflexivity.
  - rewrite bool_decide_eq_true_2 by eauto. reflexivity.
Qed.

(** X20.  The insights returned are the "text" of the first part of the
    first candidate, as it is, and one prompt is posted, for the goal
    stripped and lower-cased. *)
Theorem career_insights_first_part (d : gmap string json) g response
    (m candidate content part : gmap string json) candidates parts v :
  d !! "goal" = Some (JStr g) ->
  Str.strip g <> "" ->
  post_goal (Str.lower (Str.strip g)) = Return response ->
  json_of response = Return (JObj m) ->
  m !! "candidates" = Some (JArr (JObj candidate :: candidates)) ->
  candidate !! "content" = Some (JObj content) ->
  content !! "parts" = Some (JArr (JObj part :: parts)) ->
  part !! "text" = Some v ->
  career_insights post_goal (JObj d)
  = (insights_response v, [Str.lower (Str.strip g)]).
Proof.
  intros Hd Hne Hp Hj Hm Hc Hparts Ht.
  assert (Hg : read_goal (JObj d) = Return (Str.lower (Str.strip g))).
  { rewrite read_goal_obj, Hd. reflexivity. }
  assert (Hne' : Str.lower (Str.strip g) <> "").
  { intros H. apply Hne. exact (proj1 (lower_empty _) H). }
  rewrite (career_insights_posted _ _ _ _ Hg Hne' Hp Hj).
  unfold read_insights. simpl Op.contains. simpl Op.getitem. rewrite Hm.
  rewrite bool_decide_eq_true_2 by eauto.
  cbn [mbind result_bind Op.first Op.getitem].
  rewrite Hc. cbn [mbind result_bind Op.getitem]. rewrite Hparts.
  cbn [mbind result_bind Op.first Op.getitem]. rewrite Ht. reflexivity.
Qed.

End InsightsFacts.

Lemma career_insights_blank_witness :
  career_insights (Ex2.tells (JObj Ex2.two_parts)) (JObj Ex2.blank_goal)
  = (goal_missing, []).
Proof.
  apply (proj1 (career_insights_blank (Ex2.tells (JObj Ex2.two_parts))
                  (JObj Ex2.blank_goal))).
  split; [reflexivity|].
  right. exists "   ". split; vm_compute; reflexivity.
Defined.

Lemma career_insights_without_candidate_witness :
  career_insights (Ex2.tells (JObj Ex2.no_candidate))
    (JObj Ex2.insights_request)
  = (insights_failed, ["data scientist"]).
Proof.
  refine (proj2 (career_insights_without_candidate
                   (Ex2.tells (JObj Ex2.no_candidate))
                   (JObj Ex2.insights_request) "data scientist"
                   (Ex.ok_response (JObj Ex2.no_candidate))
                   Ex2.no_candidate _ _ _ _) _).
  - vm_compute. reflexivity.
  - discriminate.
  - reflexivity.
  - reflexivity.
  - reflexivity.
Defined.

Lemma career_insights_first_part_witness :
  career_insights (Ex2.tells (JObj Ex2.two_parts)) (JObj Ex2.insights_request)
  = (insights_response (JStr "Week 1"), ["data scientist"]).
Proof.
  apply (career_insights_first_part (Ex2.tells (JObj Ex2.two_parts))
           Ex2.insights_request "  Data Scientist "
           (Ex.ok_response (JObj Ex2.two_parts))
           Ex2.two_parts Ex2.first_candidate Ex2.first_content Ex2.first_part
           [] [jsonify [("text", JStr "Week 2")]] (JStr "Week 1"));
    try (vm_compute; reflexivity).
  vm_compute. discriminate.
Defined.

(* ================================================================== *)
(** * Further properties of [send_email] *)
(* ================================================================== *)

Section MailFacts.

Variables user pass : option string.
Variable as_string : message -> result string.
Variable relay : smtp_call -> result unit.

Lemma deliver_obj (m : gmap string json) :
  send_email user pass as_string relay (JObj m)
  = if negb (Py.all [default JNull (m !! "to_email");
                     default JNull (m !! "plan_text");
                     default JNull (m !! "type")])
    then (missing_parameters, [])
    else
      match relay (Connect "smtp.gmail.com" 587) with
      | Raise _ => (email_failed, [Connect "smtp.gmail.com" 587])
      | Return _ =>
      match relay StartTLS with
      | Raise _ => (email_failed, [Connect "smtp.gmail.com" 587; StartTLS])
      | Return _ =>
      match relay (Login user pass) with
      | Raise _ =>
          (email_failed,
           [Connect "smtp.gmail.com" 587; StartTLS; Login user pass])
      | Return _ =>
      match as_string (message_of user m) with
      | Raise _ =>
          (email_failed,
           [Connect "smtp.gmail.com" 587; StartTLS; Login user pass])
      | Return payload =>
      let to_email := default JNull (m !! "to_email") in
      match relay (SendMail user to_email payload) with
      | Raise _ =>
          (email_failed,
           [Connect "smtp.gmail.com" 587; StartTLS; Login user pass;
            SendMail user to_email payload])
      | Return _ =>
      match relay Quit with
      | Raise _ => (email_failed, delivery user pass to_email payload)
      | Return _ => (email_sent, delivery user pass to_email payload)
      end end end end end end.
Proof.
  unfold send_email, deliver, pure, call, mbind, session_bind, mret,
    session_ret, message_of.
  rewrite !get_obj. cbv beta iota.
  destruct (negb (Py.all _)); [reflexivity|].
  destruct (relay (Connect "smtp.gmail.com" 587)); [|reflexivity].
  destruct (relay StartTLS); [|reflexivity].
  destruct (relay (Login user pass)); [|reflexivity].
  destruct (as_string _); [|reflexivity]. cbv zeta.
  destruct (relay (SendMail _ _ _)); [|reflexivity].
  destruct (relay Quit); reflexivity.
Qed.

Lemma send_email_not_obj data :
  is_obj data = false ->
  send_email user pass as_string relay data = (email_failed, []).
Proof. destruct data; try discriminate; reflexivity. Qed.

(** X21.  With the three parameters, a message that serialises and a
    relay that accepts every call, the mail is delivered: the answer is
    the 200 "Email sent successfully" and the relay saw, in this order,
    the connection, STARTTLS, the login, the mail for the recipient and
    the end of the session. *)
Theorem send_email_delivers (m : gmap string json) payload :
  Py.all [default JNull (m !! "to_email");
          default JNull (m !! "plan_text");
          default JNull (m !! "type")] = true ->
  as_string (message_of user m) = Return payload ->
  (forall c,
      In c (delivery user pass (default JNull (m !! "to_email")) payload) ->
      relay c = Return tt) ->
  send_email user pass as_string relay (JObj m)
  = (email_sent,
     delivery user pass (default JNull (m !! "to_email")) payload).
Proof.
  intros Hall Hs Hr. rewrite deliver_obj, Hall, Hs. simpl negb. cbv iota zeta.
  rewrite !Hr by (unfold delivery; simpl; auto 10). reflexivity.
Qed.

(** X22.  Whatever the request, the serialisation and the relay: the
    calls made on the relay are the first calls of a delivery, in its
    order; every call but the last made has succeeded (nothing is called
    after a failure), so the login is sent only after STARTTLS succeeded;
    and the answer is a success only when the whole delivery was made. *)
Theorem send_email_log data :
  let answer := fst (send_email user pass as_string relay data) in
  let log := snd (send_email user pass as_string relay data) in
  (exists to_email payload,
      log `prefix_of` delivery user pass to_email payload
      /\ (status answer = 200 ->
          log = delivery user pass to_email payload))
  /\ (forall c, In c (removelast log) -> relay c = Return tt)
  /\ (In (Login user pass) log -> relay StartTLS = Return tt)
  /\ (status answer = 400 -> log = []).
Proof.
  intros answer log. subst answer log.
  destruct (is_obj data) eqn:Hobj.
  2: { rewrite (send_email_not_obj _ Hobj). simpl. repeat split.
       - exists JNull, "". split; [eexists; reflexivity|discriminate].
       - intros c [].
       - intros []. }
  destruct data as [| | | | | |m]; try discriminate. rewrite deliver_obj.
  destruct (negb (Py.all _)).
  { simpl. repeat split.
    - exists JNull, "". split; [eexists; reflexivity|discriminate].
    - intros c [].
    - intros []. }
  destruct (relay (Connect "smtp.gmail.com" 587)) as [[]|] eqn:E1.
  2: { simpl. repeat split.
       - exists JNull, "". split; [eexists; reflexivity|discriminate].
       - intros c [].
       - intros [H|[]]; discriminate.
       - discriminate. }
  destruct (relay StartTLS) as [[]|] eqn:E2.
  2: { simpl. repeat split.
       - exists JNull, "". split; [eexists; reflexivity|discriminate].
       - intros c [<-|[]]; assumption.
       - intros [H|[H|[]]]; discriminate.
       - discriminate. }
  destruct (relay (Login user pass)) as [[]|] eqn:E3.
  2: { simpl. repeat split.
       - exists JNull, "". split; [eexists; reflexivity|discriminate].
       - intros c [<-|[<-|[]]]; assumption.
       - discriminate. }
  destruct (as_string (message_of user m)) as [payload|] eqn:E4.
  2: { simpl. repeat split.
       - exists JNull, "". split; [eexists; reflexivity|discriminate].
       - intros c [<-|[<-|[]]]; assumption.
       - discriminate. }
  cbv zeta.
  destruct (relay (SendMail user _ payload)) as [[]|] eqn:E5.
  2: { simpl. repeat split.
       - eexists _, payload. split; [eexists; reflexivity|discriminate].
       - intros c [<-|[<-|[<-|[]]]]; assumption.
       - discriminate. }
  destruct (relay Quit) as [[]|] eqn:E6; simpl; repeat split;
    try discriminate;
    try (eexists _, payload; split; [exists []; reflexivity|reflexivity]);
    try (intros c [<-|[<-|[<-|[<-|[]]]]]; assumption).
Qed.

End MailFacts.

Lemma send_email_delivers_witness :
  send_email (Some "me") (Some "pw") Ex.serialised Ex.relay_up (JObj Ex2.mail)
  = (email_sent, delivery (Some "me") (Some "pw") (JStr "a@b.c") "").
Proof.
  apply (send_email_delivers (Some "me") (Some "pw") Ex.serialised
           Ex.relay_up Ex2.mail "").
  - vm_compute. reflexivity.
  - reflexivity.
  - intros c _. reflexivity.
Defined.

(* ================================================================== *)
(** * Further properties of [submit_feedback] *)
(* ================================================================== *)

Lemma take_startswith n s : Str.startswith (Str.take n s) s = true.
Proof.
  revert s. induction n as [|n IH]; intros [|c s]; simpl; try reflexivity.
  now rewrite Ascii.eqb_refl, IH.
Qed.

Lemma take_length_min n s :
  String.length (Str.take n s) = Nat.min n (String.length s).
Proof.
  revert s. induction n as [|n IH]; intros [|c s]; simpl; try reflexivity.
  now rewrite IH.
Qed.

Lemma take_all n s : (String.length s <= n)%nat -> Str.take n s = s.
Proof.
  revert s. induction n as [|n IH]; intros [|c s]; simpl; try reflexivity.
  - lia.
  - intros H. rewrite IH by lia. reflexivity.
Qed.

Section FeedbackFacts.

Variable add : feedback_entry -> result unit.

Lemma submit_feedback_obj (m : gmap string json) :
  submit_feedback add (JObj m)
  = match Op.slice_to 100 (default (JStr "") (m !! "plan_text")) with
    | Raise _ => (feedback_failed, [])
    | Return excerpt =>
        let entry := {| exam_type := default JNull (m !! "exam_type");
                        rating := default JNull (m !! "rating");
                        comment := default JNull (m !! "comment");
                        plan_excerpt := excerpt |} in
        match add entry with
        | Return _ => (feedback_stored, [entry])
        | Raise _ => (feedback_failed, [])
        end
    end.
Proof.
  unfold submit_feedback. rewrite !get_obj. cbn [mbind result_bind].
  destruct (Op.slice_to 100 _); [|reflexivity].
  cbn [mbind result_bind]. cbv zeta. destruct (add _); reflexivity.
Qed.

(** X24.  The excerpt stored for a plan that is a string is its
    beginning, of length min(100, length of the plan): a plan of at most
    100 characters is stored whole. *)
Theorem plan_excerpt_is_prefix (m : gmap string json) s entry :
  default (JStr "") (m !! "plan_text") = JStr s ->
  In entry (snd (submit_feedback add (JObj m))) ->
  exists excerpt,
    plan_excerpt entry = JStr excerpt
    /\ Str.startswith excerpt s = true
    /\ String.length excerpt = Nat.min 100 (String.length s)
    /\ ((String.length s <= 100)%nat -> excerpt = s).
Proof.
  intros Hs. rewrite submit_feedback_obj, Hs. simpl Op.slice_to.
  cbv beta iota zeta.
  destruct (add _); [|intros []]. intros [<-|[]].
  exists (Str.take 100 s). simpl plan_excerpt.
  split; [reflexivity|]. split; [apply take_startswith|].
  split; [apply take_length_min | apply take_all].
Qed.

(** X25.  A [plan_text] that is present without being a string or a
    list (a [null], a number, an object) is not replaced by the default:
    the feedback is answered with the 500 and nothing is added. *)
Theorem plan_text_not_sliceable (m : gmap string json) v :
  m !! "plan_text" = Some v ->
  sliceable v = false ->
  submit_feedback add (JObj m) = (feedback_failed, []).
Proof.
  intros Hm Hv. rewrite submit_feedback_obj, Hm. simpl default.
  destruct v; try discriminate; reflexivity.
Qed.

End FeedbackFacts.

Lemma plan_excerpt_is_prefix_witness :
  exists excerpt,
    JStr "Week 1: verbs" = JStr excerpt
    /\ Str.startswith excerpt "Week 1: verbs" = true
    /\ String.length excerpt = Nat.min 100 (String.length "Week 1: verbs")
    /\ ((String.length "Week 1: verbs" <= 100)%nat
        -> excerpt = "Week 1: verbs").
Proof.
  apply (plan_excerpt_is_prefix Ex.store_up Ex2.short_feedback
           "Week 1: verbs"
           {| exam_type := JNull; rating := JInt 4; comment := JNull;
              plan_excerpt := JStr "Week 1: verbs" |}).
  - vm_compute. reflexivity.
  - vm_compute. left. reflexivity.
Defined.

Lemma plan_text_not_sliceable_witness :
  submit_feedback Ex.store_up (JObj Ex2.null_plan_feedback)
  = (feedback_failed, []).
Proof.
  apply (plan_text_not_sliceable Ex.store_up Ex2.null_plan_feedback JNull).
  - vm_compute. reflexivity.
  - reflexivity.
Defined.

(* ================================================================== *)
(** * The text [int()] accepts *)
(* ================================================================== *)

Lemma ltrim_chars s :
  Str.forallb int_char (Num.ltrim s) = true -> Str.forallb int_char s = true.
Proof.
  induction s as [|c s IH]; simpl; [trivial|].
  destruct (Num.is_blank c) eqn:Hc; [|trivial].
  intros H. unfold int_char at 1. rewrite Hc. simpl. now apply IH.
Qed.

Lemma ltrim_empty s :
  Num.ltrim s = EmptyString -> Str.forallb int_char s = true.
Proof.
  intros H. apply ltrim_chars. now rewrite H.
Qed.

Lemma read_sign_chars s neg t :
  Num.read_sign s = (neg, t) ->
  Str.forallb int_char t = true -> Str.forallb int_char s = true.
Proof.
  destruct s as [|c s]; [now intros [= <- <-]|].
  destruct (Ascii.eqb c "-") eqn:Hm.
  { apply Ascii.eqb_eq in Hm as ->. now intros [= <- <-]. }
  destruct (Ascii.eqb c "+") eqn:Hp.
  { apply Ascii.eqb_eq in Hp as ->. now intros [= <- <-]. }
  assert (Num.read_sign (String c s) = (false, String c s)) as ->.
  { destruct c as [[] [] [] [] [] [] [] []]; try reflexivity; discriminate. }
  now intros [= <- <-].
Qed.

Lemma read_int_digits_chars s prev acc n v k rest :
  Num.read_int_digits prev s acc n = Some (v, k, rest) ->
  Str.forallb int_char rest = true -> Str.forallb int_char s = true.
Proof.
  revert prev acc n. induction s as [|c s IH]; intros prev acc n; simpl.
  { destruct (Ascii.eqb prev "_"); [discriminate|]. now intros [= <- <- <-]. }
  destruct (Ascii.eqb c "_") eqn:Hu.
  { apply Ascii.eqb_eq in Hu as ->.
    destruct (Ascii.eqb prev "_"); [discriminate|].
    intros H Hr. simpl. exact (IH _ _ _ H Hr). }
  destruct (Num.is_digit c) eqn:Hd.
  { intros H Hr. unfold int_char at 1. rewrite Hd, orb_true_r. simpl.
    exact (IH _ _ _ H Hr). }
  destruct (Ascii.eqb prev "_"); [discriminate|].
  now intros [= <- <- <-].
Qed.

Lemma after_underscore_test {A} (t : string) (x : result A) (z : A) :
  match t with
  | String "_" _ => Raise ValueError
  | _ => x
  end = Return z ->
  x = Return z.
Proof.
  destruct t as [|[[] [] [] [] [] [] [] []] t']; intros H;
    try exact H; discriminate.
Qed.

Lemma int_of_string_chars s z :
  Num.int_of_string s = Return z -> Str.forallb int_char s = true.
Proof.
  unfold Num.int_of_string.
  destruct (Num.read_sign (Num.ltrim s)) as [neg t] eqn:Hsign.
  intros H. apply after_underscore_test in H.
  destruct (Num.read_int_digits "000" t 0 0) as [[[v k] rest]|] eqn:Hd;
    [|discriminate].
  destruct k as [|k]; [discriminate|].
  destruct (Num.ltrim rest) eqn:Hrest; [|discriminate].
  apply ltrim_chars. apply (read_sign_chars _ _ _ Hsign).
  apply (read_int_digits_chars _ _ _ _ _ _ _ Hd). now apply ltrim_empty.
Qed.

(** X26.  A budget given as text is read by [int()], not by [float()]:
    text with a character other than a digit, a sign, an underscore or a
    blank (a decimal point, an exponent, a currency sign) fails the
    analysis with the 500 "Profile analysis failed", whatever the other
    fields and the catalogue are. *)
Theorem budget_text_not_integer re_other df (m : gmap string json) s :
  m !! "budget" = Some (JStr s) ->
  Str.forallb int_char s = false ->
  analyze_profile re_other df (JObj m) = analysis_failed.
Proof.
  intros Hm Hs.
  destruct (read_profile_not_numeric m) as [e He].
  { right. rewrite Hm. simpl.
    destruct (Num.int_of_string s) as [z|e] eqn:Hz; [|now exists e].
    apply int_of_string_chars in Hz. congruence. }
  exact (analyze_profile_unread _ _ _ _ He).
Qed.

Lemma budget_text_not_integer_witness :
  analyze_profile no_other (Frame [Ex.msds]) (JObj Ex2.decimal_budget)
  = analysis_failed.
Proof.
  apply (budget_text_not_integer no_other (Frame [Ex.msds])
           Ex2.decimal_budget "2500.50").
  - vm_compute. reflexivity.
  - vm_compute. reflexivity.
Defined.
